(** * Login flow of epicgames-freegames-node ([src/login.ts])

    A shallow embedding of the [Login] class: every method is a computation
    in a small monad that threads the history of observable events (log
    lines, HTTP requests, CAPTCHA notifications, TOTP generations) and may
    end in a thrown JavaScript error.  The outside world (the [Got] client,
    the CAPTCHA channel, the TOTP generator) answers each call as a function
    of the history so far, so every deterministic server behaviour is an
    instance and theorems quantified over the world cover all of them. *)

From Stdlib Require Import String Ascii List ZArith Lia Bool Arith.
From Equations Require Import Equations.
Import ListNotations.

Local Open Scope string_scope.
Local Open Scope list_scope.
Local Set Warnings "-notation-for-abbreviation".

(** ** Data *)

(** Modelled from the spec: the vendor's endpoints and the client id that
    [login.ts] imports from [common/constants] (CSRF-token fetch, login
    submission, reputation fetch, MFA submission, email verification,
    redirect, SID-setting, store homepage).  Only their names occur in
    [login.ts]; a request records the name of the constant the code passes
    rather than the URL string behind it. *)
Inductive Constant : Set :=
| CSRF_ENDPOINT
| LOGIN_ENDPOINT
| EPIC_CLIENT_ID
| REDIRECT_ENDPOINT
| REPUTATION_ENDPOINT
| EMAIL_VERIFY
| STORE_HOMEPAGE
| MFA_LOGIN_ENDPOINT
| SET_SID_ENDPOINT.

(** Modelled from the spec: the named public site key the CAPTCHA channel
    is keyed to, [EpicArkosePublicKey.LOGIN] of the [captcha] module; only
    the member that [login.ts] uses is named. *)
Module EpicArkosePublicKey.
Inductive t : Set := LOGIN.
End EpicArkosePublicKey.

(** Thrown values.  Every error is an object with a [name] and a [message];
    errors raised by the HTTP client may carry a [response] whose [body]
    may carry an [errorCode], a string as in the expected failure payload
    [{ response: { body: { errorCode: string } } }].  Each level may be
    missing, which is what the guard of the [catch] block tests. *)
Module Err.
Record Body : Set := { errorCode : option string }.
Record Response : Set := { body : option Body }.
Record t : Set :=
  { name : string; message : string; response : option Response }.
End Err.

(** [new Error(message)] *)
Definition Error (message : string) : Err.t :=
  {| Err.name := "Error"; Err.message := message; Err.response := None |}.

(** The [TypeError] of reading a property of [undefined]. *)
Definition TypeError (message : string) : Err.t :=
  {| Err.name := "TypeError"; Err.message := message; Err.response := None |}.

(** One parsed [Set-Cookie] entry, as [set-cookie-parser] returns it. *)
Record Cookie : Set := { name : string; value : string }.

(** Modelled from the spec: the response shapes [ReputationData] (the
    opaque blob of the anti-bot challenge) and [RedirectResponse] (the
    session identifier) of [interfaces/types], reduced to the fields that
    [login.ts] reads. *)
Record ArkoseData : Set := { blob : string }.

Record Body : Set :=
  { sid : option string;          (* RedirectResponse: [sid], null when logged out *)
    arkose_data : ArkoseData }.   (* ReputationData: [arkose_data.blob] *)

Record Response : Set :=
  { set_cookie : list Cookie;     (* headers['set-cookie'], already split *)
    body : Body }.

(** [LoginBody] and [MFABody] of [interfaces/types], with the fields of the
    object literals in [login] and [loginMFA]. *)
Record LoginBody : Set :=
  { password : string; rememberMe : bool; captcha : string; email : string }.

Record MFABody : Set :=
  { code : string; method : string; rememberDevice : bool }.

Inductive JsonBody : Set :=
| LoginJson (b : LoginBody)
| MFAJson (b : MFABody)
| VerifyJson (verificationCode : string).

Inductive SearchParams : Set :=
| RedirectSearchParams (clientId redirectUrl : Constant)
| SidSearchParams (sid : string).

(** A call on [this.request]: [get(url, { headers, searchParams,
    responseType })] or [post(url, { json, headers })]; [xsrf] is the
    ['x-xsrf-token'] header. *)
Inductive Request : Set :=
| Get (url : Constant) (xsrf : option string)
      (searchParams : option SearchParams) (responseType : option string)
| Post (url : Constant) (json : JsonBody) (xsrf : string).

Inductive Level : Set := Ltrace | Ldebug | Linfo | Lerror.

(** The object a log line is tagged with. *)
Inductive LogObj : Set :=
| NoObj
| ObjAttempt (email captcha : string) (attempt : Z)
| ObjUrl (url : Constant)
| ObjBodyUrl (body : JsonBody) (url : Constant)
| ObjParamsUrl (params : SearchParams) (url : Constant)
| ObjHeaders (set_cookie : list Cookie)
| ObjErrBody (b : Err.Body)
| ObjErr (e : Err.t).

(** What the outside can observe of a run, in the order it happens. *)
Inductive Event : Set :=
| Log (level : Level) (obj : LogObj) (msg : string)
| CallHttp (r : Request)
| CallCaptcha (key : EpicArkosePublicKey.t) (blob : option string)
| CallTotp (secret : string).

Definition Trace : Set := list Event.

(** The result of awaiting a promise. *)
Inductive Outcome (A : Type) : Type :=
| Return (a : A)
| Throw (e : Err.t).
Arguments Return {A} a.
Arguments Throw {A} e.

(** The collaborators: the [Got] client given to the constructor, the
    CAPTCHA channel [notifyManualCaptcha] and the TOTP generator.  Each
    answers, with a value or with a thrown error, from the history of
    events before the call and the call's arguments. *)
Record World : Type :=
  { request : Trace -> Request -> Outcome Response;
    notifyManualCaptcha :
      Trace -> EpicArkosePublicKey.t -> option string -> Outcome string;
    TOTP_generate : Trace -> string -> Outcome string }.

(** ** The monad of asynchronous methods *)

Definition M (A : Type) : Type := Trace -> Outcome A * Trace.

Definition ret {A} (a : A) : M A := fun t => (Return a, t).

Definition throw {A} (e : Err.t) : M A := fun t => (Throw e, t).

Definition bind {A B} (m : M A) (k : A -> M B) : M B :=
  fun t =>
    match m t with
    | (Return a, t') => k a t'
    | (Throw e, t') => (Throw e, t')
    end.

(** [try { m } catch (e) { h e }] *)
Definition try_catch {A} (m : M A) (h : Err.t -> M A) : M A :=
  fun t =>
    match m t with
    | (Return a, t') => (Return a, t')
    | (Throw e, t') => h e t'
    end.

Declare Scope js_scope.
Delimit Scope js_scope with js.
Notation "x <- m ;; k" := (bind m (fun x => k))
  (at level 61, m at next level, right associativity) : js_scope.
Notation "m ;; k" := (bind m (fun _ => k))
  (at level 61, right associativity) : js_scope.
Local Open Scope js_scope.

Definition emit (ev : Event) : M unit := fun t => (Return tt, t ++ [ev]).

(** ** JavaScript primitives *)

(** Truthiness of a value that is a string, [null] or [undefined]. *)
Definition truthy (s : option string) : bool :=
  match s with
  | Some (String _ _) => true
  | _ => false
  end.

(** [hay.includes(needle)] *)
Fixpoint includes (hay needle : string) : bool :=
  String.prefix needle hay
  || match hay with
     | EmptyString => false
     | String _ rest => includes rest needle
     end.

(** A parameter with a default value takes it when the argument is
    [undefined]. *)
Definition default_arg {A} (d : A) (arg : option A) : A :=
  match arg with
  | Some a => a
  | None => d
  end.

(** [cookieParser(setCookie, { map: true })[key]]: the map keeps the last
    cookie of each name. *)
Fixpoint cookieParser (setCookie : list Cookie) (key : string)
  : option Cookie :=
  match setCookie with
  | [] => None
  | c :: rest =>
      match cookieParser rest key with
      | Some c' => Some c'
      | None => if String.eqb (name c) key then Some c else None
      end
  end.

(** Modelled from the spec: the process-wide configuration of
    [common/config], from which the default credentials of [fullLogin] are
    pulled.  It is a parameter of the class below. *)
Module Config.
Record Account : Set :=
  { email : string; password : string; totp : option string }.
Record t : Set := { accounts : list Account }.
End Config.

(** ** The class [Login] *)

Section Login.

Variable W : World.
Variable config : Config.t.

Definition L_trace (obj : LogObj) (msg : string) : M unit :=
  emit (Log Ltrace obj msg).
Definition L_debug (obj : LogObj) (msg : string) : M unit :=
  emit (Log Ldebug obj msg).
Definition L_info (obj : LogObj) (msg : string) : M unit :=
  emit (Log Linfo obj msg).
Definition L_error (obj : LogObj) (msg : string) : M unit :=
  emit (Log Lerror obj msg).

Definition request_get (url : Constant) (xsrf : option string)
    (searchParams : option SearchParams) (responseType : option string)
  : M Response :=
  fun t =>
    let r := Get url xsrf searchParams responseType in
    (request W t r, t ++ [CallHttp r]).

Definition request_post (url : Constant) (json : JsonBody) (xsrf : string)
  : M Response :=
  fun t =>
    let r := Post url json xsrf in
    (request W t r, t ++ [CallHttp r]).

Definition call_notifyManualCaptcha (key : EpicArkosePublicKey.t)
    (blob : option string) : M string :=
  fun t => (notifyManualCaptcha W t key blob, t ++ [CallCaptcha key blob]).

(** [new TOTP({ secret }).generate()] *)
Definition call_TOTP_generate (secret : string) : M string :=
  fun t => (TOTP_generate W t secret, t ++ [CallTotp secret]).

(** [getCsrf()], lines 39-47: fetches the CSRF endpoint and reads the
    cookie [XSRF-TOKEN] of the response; reading [.value] of a missing
    cookie throws. *)
Definition getCsrf : M string :=
  L_debug NoObj "Refreshing CSRF" ;;
  L_trace (ObjUrl CSRF_ENDPOINT) "CSRF request" ;;
  csrfResp <- request_get CSRF_ENDPOINT None None None ;;
  match cookieParser (set_cookie csrfResp) "XSRF-TOKEN" with
  | Some c => ret (value c)
  | None => throw (TypeError "Cannot read property 'value' of undefined")
  end.

(** [getReputation()], lines 49-53. *)
Definition getReputation : M Body :=
  L_trace (ObjUrl REPUTATION_ENDPOINT) "Reputation request" ;;
  resp <- request_get REPUTATION_ENDPOINT None None None ;;
  ret (body resp).

(** [loginMFA(totpSecret?)], lines 55-72. *)
Definition loginMFA (totpSecret : option string) : M unit :=
  L_debug NoObj "Logging in with MFA" ;;
  if negb (truthy totpSecret) then
    throw (Error "TOTP required for MFA login")
  else
    csrfToken <- getCsrf ;;
    code <- call_TOTP_generate (default_arg "" totpSecret) ;;
    let mfaRequest :=
      {| code := code; method := "authenticator"; rememberDevice := true |} in
    L_trace (ObjBodyUrl (MFAJson mfaRequest) MFA_LOGIN_ENDPOINT) "MFA request" ;;
    request_post MFA_LOGIN_ENDPOINT (MFAJson mfaRequest) csrfToken ;;
    ret tt.

(** [sendVerify(code)], lines 74-86. *)
Definition sendVerify (code : string) : M unit :=
  csrfToken <- getCsrf ;;
  let verifyBody := VerifyJson code in
  L_trace (ObjBodyUrl verifyBody EMAIL_VERIFY) "Verify email request" ;;
  request_post EMAIL_VERIFY verifyBody csrfToken ;;
  ret tt.

(** The guard of the [catch] block: [e.response && e.response.body &&
    e.response.body.errorCode], giving the body and its error code. *)
Definition structured (e : Err.t) : option (Err.Body * string) :=
  match Err.response e with
  | Some r =>
      match Err.body r with
      | Some b =>
          if truthy (Err.errorCode b)
          then Some (b, default_arg "" (Err.errorCode b))
          else None
      | None => None
      end
  | None => None
  end.

(** Termination measure of [login]: the calls left before the guard
    [attempt > 5] fires. *)
Definition attempts_left (attempt : option Z) : nat :=
  Z.to_nat (6 - default_arg 0%Z attempt).
Arguments attempts_left : simpl never.

(** [login(email, password, captcha = '', totp = '', blob?, attempt = 0)],
    lines 88-141.  An argument that may be omitted is an [option], and the
    body starts by applying the defaults.  [attempt] is an integer
    counter: callers start it at its default 0 and the method itself
    passes [attempt + 1].  The history is an explicit
    argument because the recursion is by the measure [attempts_left] and
    not structural. *)
Equations? login (email password : string) (captcha totp blob : option string)
    (attempt : option Z) (t : Trace) : Outcome unit * Trace
  by wf (attempts_left attempt) lt :=
login email password captcha0 totp0 blob attempt0 t :=
  (let captcha := default_arg "" captcha0 in
  let totp := default_arg "" totp0 in
  let attempt := default_arg 0%Z attempt0 in
  L_debug (ObjAttempt email captcha attempt) "Attempting login" ;;
  csrfToken <- getCsrf ;;
  if Z_gt_dec attempt 5 then
    throw (Error "Too many login attempts")
  else
    let loginBody :=
      {| password := password; rememberMe := true;
         captcha := captcha; email := email |} in
    try_catch
      (L_trace (ObjBodyUrl (LoginJson loginBody) LOGIN_ENDPOINT) "Login request" ;;
       request_post LOGIN_ENDPOINT (LoginJson loginBody) csrfToken ;;
       L_debug NoObj "Logged in")
      (fun e =>
         match structured e with
         | Some (errBody, errorCode) =>
             if includes errorCode "session_invalidated" then
               L_debug NoObj "Session invalidated, retrying" ;;
               (fun t' => login email password (Some captcha) (Some totp) blob
                            (Some (attempt + 1)%Z) t')
             else if String.eqb errorCode
                       "errors.com.epicgames.accountportal.captcha_invalid" then
               L_debug NoObj "Captcha required" ;;
               captchaToken <-
                 call_notifyManualCaptcha EpicArkosePublicKey.LOGIN blob ;;
               (fun t' => login email password (Some captchaToken) (Some totp)
                            blob (Some (attempt + 1)%Z) t')
             else if String.eqb errorCode
                       "errors.com.epicgames.common.two_factor_authentication.required" then
               loginMFA (Some totp)
             else
               L_error (ObjErrBody errBody) "Login failed" ;;
               throw e
         | None =>
             L_error (ObjErr e) "Login failed" ;;
             throw e
         end)) t.
Proof.
  all: subst attempt; unfold attempts_left;
    destruct attempt0; cbn [default_arg] in *; lia.
Qed.

(** [getStoreToken()], lines 146-150: sets the 'store-token' cookie which
    is necessary to authenticate on the GraphQL proxy endpoint. *)
Definition getStoreToken : M unit :=
  L_trace (ObjUrl STORE_HOMEPAGE) "Request store homepage" ;;
  resp <- request_get STORE_HOMEPAGE None None (Some "text") ;;
  L_trace (ObjHeaders (set_cookie resp)) "Store homepage response headers".

(** [refreshAndSid(error)], lines 152-174. *)
Definition refreshAndSid (error : bool) : M bool :=
  L_debug NoObj "Setting SID" ;;
  csrfToken <- getCsrf ;;
  let redirectSearchParams :=
    RedirectSearchParams EPIC_CLIENT_ID STORE_HOMEPAGE in
  L_trace (ObjParamsUrl redirectSearchParams REDIRECT_ENDPOINT)
    "Redirect request" ;;
  redirectResp <-
    request_get REDIRECT_ENDPOINT (Some csrfToken)
      (Some redirectSearchParams) None ;;
  let sid := sid (body redirectResp) in
  if negb (truthy sid) then
    if error then throw (Error "Sid returned null") else ret false
  else
    let sidSearchParams := SidSearchParams (default_arg "" sid) in
    L_trace (ObjParamsUrl sidSearchParams SET_SID_ENDPOINT) "Set SID request" ;;
    sidResp <- request_get SET_SID_ENDPOINT None (Some sidSearchParams) None ;;
    L_trace (ObjHeaders (set_cookie sidResp)) "Set SID response headers" ;;
    getStoreToken ;;
    ret true.

(** [config.accounts[0].field], a [TypeError] when no account is
    configured. *)
Definition account0 {A} (field : Config.Account -> A) : M A :=
  match Config.accounts config with
  | a :: _ => ret (field a)
  | [] => throw (TypeError "Cannot read property of undefined")
  end.

(** [fullLogin(email = config.accounts[0].email, password = ...,
    totp = ...)], lines 176-190; a default is evaluated only for an
    argument that is omitted. *)
Definition fullLogin (email password totp : option string) : M unit :=
  email <- match email with
           | Some s => ret s
           | None => account0 Config.email
           end ;;
  password <- match password with
              | Some s => ret s
              | None => account0 Config.password
              end ;;
  totp <- match totp with
          | Some s => ret (Some s)
          | None => account0 Config.totp
          end ;;
  refreshed <- refreshAndSid false ;;
  if refreshed then
    L_info NoObj "Successfully refreshed login"
  else
    L_debug NoObj "Could not refresh credentials. Logging in fresh." ;;
    reputation <- getReputation ;;
    login email password (Some "") totp
      (Some (blob (arkose_data reputation))) None ;;
    refreshAndSid true ;;
    L_info NoObj "Successfully logged in fresh".

End Login.

(** ** Observations on a history *)

(** The requests sent through the HTTP client, in order. *)
Fixpoint network_calls (t : Trace) : list Request :=
  match t with
  | [] => []
  | CallHttp r :: rest => r :: network_calls rest
  | _ :: rest => network_calls rest
  end.

(** The credential POST: a POST to the login endpoint. *)
Definition is_credential_post (r : Request) : bool :=
  match r with
  | Post LOGIN_ENDPOINT _ _ => true
  | _ => false
  end.

Definition credential_posts (t : Trace) : nat :=
  length (filter is_credential_post (network_calls t)).

(** The MFA POST: a POST to the MFA endpoint. *)
Definition is_mfa_post (r : Request) : bool :=
  match r with
  | Post MFA_LOGIN_ENDPOINT _ _ => true
  | _ => false
  end.

Definition mfa_posts (t : Trace) : nat :=
  length (filter is_mfa_post (network_calls t)).

(** The values of [attempt] with which [login] was entered: each entry
    logs ['Attempting login'] with its attempt counter. *)
Fixpoint attempts_logged (t : Trace) : list Z :=
  match t with
  | [] => []
  | Log _ (ObjAttempt _ _ attempt) _ :: rest => attempt :: attempts_logged rest
  | _ :: rest => attempts_logged rest
  end.

(** The value of the attempt counter at each credential POST: the one
    logged by the entry into [login] that precedes the POST, [current]
    being the counter in force where the history starts. *)
Fixpoint posting_attempts (current : Z) (t : Trace) : list Z :=
  match t with
  | [] => []
  | Log _ (ObjAttempt _ _ attempt) _ :: rest => posting_attempts attempt rest
  | CallHttp (Post LOGIN_ENDPOINT _ _) :: rest =>
      current :: posting_attempts current rest
  | _ :: rest => posting_attempts current rest
  end.

(** The calls of the CAPTCHA resolver. *)
Definition is_captcha_call (ev : Event) : bool :=
  match ev with
  | CallCaptcha _ _ => true
  | _ => false
  end.

Definition captcha_calls (t : Trace) : nat :=
  length (filter is_captcha_call t).

(** The one-time codes generated. *)
Definition is_totp_call (ev : Event) : bool :=
  match ev with
  | CallTotp _ => true
  | _ => false
  end.

Definition totp_calls (t : Trace) : nat := length (filter is_totp_call t).

(** The entries into [loginMFA]: each logs ['Logging in with MFA']. *)
Definition is_mfa_entry (ev : Event) : bool :=
  match ev with
  | Log Ldebug NoObj msg => String.eqb msg "Logging in with MFA"
  | _ => false
  end.

Definition mfa_entries (t : Trace) : nat := length (filter is_mfa_entry t).

(** The events of one [getCsrf], whatever its outcome. *)
Definition csrf_events : list Event :=
  [ Log Ldebug NoObj "Refreshing CSRF";
    Log Ltrace (ObjUrl CSRF_ENDPOINT) "CSRF request";
    CallHttp (Get CSRF_ENDPOINT None None None) ].

(** The server's error codes that [login] recognises. *)
Definition captcha_invalid : string :=
  "errors.com.epicgames.accountportal.captcha_invalid".
Definition two_factor_required : string :=
  "errors.com.epicgames.common.two_factor_authentication.required".

(** ** The stages of one [login] call *)

(** The history once [login] has logged its entry; [captcha] and [attempt]
    are the arguments after their defaults. *)
Definition entered (email captcha : string) (attempt : Z) (t : Trace)
  : Trace :=
  t ++ [Log Ldebug (ObjAttempt email captcha attempt) "Attempting login"].

(** The body of the credential POST. *)
Definition login_json (email password captcha : string) : JsonBody :=
  LoginJson {| password := password; rememberMe := true;
               captcha := captcha; email := email |}.

(** The history at the moment the credential POST is sent: the entry, the
    CSRF fetch and the trace line of the request. *)
Definition requesting (email password captcha : string) (attempt : Z)
    (t : Trace) : Trace :=
  entered email captcha attempt t ++ csrf_events ++
  [Log Ltrace (ObjBodyUrl (login_json email password captcha) LOGIN_ENDPOINT)
     "Login request"].

(** The history once the credential POST has been sent. *)
Definition posted (email password captcha : string) (attempt : Z)
    (csrfToken : string) (t : Trace) : Trace :=
  requesting email password captcha attempt t ++
  [CallHttp
     (Post LOGIN_ENDPOINT (login_json email password captcha) csrfToken)].

(** The credential POST of a [login] call from history [t] is sent with
    the token [csrfToken] and answered by an error: the guard lets the
    call pass, the CSRF fetch returns [csrfToken], and the POST throws
    [e]. *)
Definition credential_post_fails (W : World) (email password captcha : string)
    (attempt : Z) (t : Trace) (csrfToken : string) (e : Err.t) : Prop :=
  (attempt <= 5)%Z
  /\ fst (getCsrf W (entered email captcha attempt t)) = Return csrfToken
  /\ request W (requesting email password captcha attempt t)
       (Post LOGIN_ENDPOINT (login_json email password captcha) csrfToken)
     = Throw e.


(** ** The stages of one [refreshAndSid] call *)

Definition redirect_request (csrfToken : string) : Request :=
  Get REDIRECT_ENDPOINT (Some csrfToken)
    (Some (RedirectSearchParams EPIC_CLIENT_ID STORE_HOMEPAGE)) None.

(** The history at the moment the redirect request is sent. *)
Definition redirecting (t : Trace) : Trace :=
  (t ++ [Log Ldebug NoObj "Setting SID"]) ++ csrf_events ++
  [Log Ltrace
     (ObjParamsUrl (RedirectSearchParams EPIC_CLIENT_ID STORE_HOMEPAGE)
        REDIRECT_ENDPOINT)
     "Redirect request"].

(** The runs of [login] as a derivation: one rule per path through the
    method, the two retrying paths with the run of the recursive call as a
    premise.  [login_run_login] below shows that every call has its
    derivation, so properties of whole retry chains are proved by
    induction on it. *)
Inductive login_run (W : World) (email password totp : string)
    (blob : option string)
  : string -> Z -> Trace -> Outcome unit * Trace -> Prop :=
| run_csrf_throws captcha attempt t e :
    fst (getCsrf W (entered email captcha attempt t)) = Throw e ->
    login_run W email password totp blob captcha attempt t
      (Throw e, entered email captcha attempt t ++ csrf_events)
| run_limit captcha attempt t csrfToken :
    fst (getCsrf W (entered email captcha attempt t)) = Return csrfToken ->
    (attempt > 5)%Z ->
    login_run W email password totp blob captcha attempt t
      (Throw (Error "Too many login attempts"),
       entered email captcha attempt t ++ csrf_events)
| run_logged_in captcha attempt t csrfToken resp :
    (attempt <= 5)%Z ->
    fst (getCsrf W (entered email captcha attempt t)) = Return csrfToken ->
    request W (requesting email password captcha attempt t)
      (Post LOGIN_ENDPOINT (login_json email password captcha) csrfToken)
    = Return resp ->
    login_run W email password totp blob captcha attempt t
      (Return tt,
       posted email password captcha attempt csrfToken t
         ++ [Log Ldebug NoObj "Logged in"])
| run_session_invalidated captcha attempt t csrfToken e errBody errorCode r :
    credential_post_fails W email password captcha attempt t csrfToken e ->
    structured e = Some (errBody, errorCode) ->
    includes errorCode "session_invalidated" = true ->
    login_run W email password totp blob captcha (attempt + 1)
      (posted email password captcha attempt csrfToken t
         ++ [Log Ldebug NoObj "Session invalidated, retrying"]) r ->
    login_run W email password totp blob captcha attempt t r
| run_captcha captcha attempt t csrfToken e errBody errorCode captchaToken r :
    credential_post_fails W email password captcha attempt t csrfToken e ->
    structured e = Some (errBody, errorCode) ->
    includes errorCode "session_invalidated" = false ->
    String.eqb errorCode captcha_invalid = true ->
    notifyManualCaptcha W
      (posted email password captcha attempt csrfToken t
         ++ [Log Ldebug NoObj "Captcha required"])
      EpicArkosePublicKey.LOGIN blob = Return captchaToken ->
    login_run W email password totp blob captchaToken (attempt + 1)
      (posted email password captcha attempt csrfToken t
         ++ [Log Ldebug NoObj "Captcha required";
             CallCaptcha EpicArkosePublicKey.LOGIN blob]) r ->
    login_run W email password totp blob captcha attempt t r
| run_captcha_throws captcha attempt t csrfToken e errBody errorCode e' :
    credential_post_fails W email password captcha attempt t csrfToken e ->
    structured e = Some (errBody, errorCode) ->
    includes errorCode "session_invalidated" = false ->
    String.eqb errorCode captcha_invalid = true ->
    notifyManualCaptcha W
      (posted email password captcha attempt csrfToken t
         ++ [Log Ldebug NoObj "Captcha required"])
      EpicArkosePublicKey.LOGIN blob = Throw e' ->
    login_run W email password totp blob captcha attempt t
      (Throw e',
       posted email password captcha attempt csrfToken t
         ++ [Log Ldebug NoObj "Captcha required";
             CallCaptcha EpicArkosePublicKey.LOGIN blob])
| run_mfa captcha attempt t csrfToken e errBody errorCode :
    credential_post_fails W email password captcha attempt t csrfToken e ->
    structured e = Some (errBody, errorCode) ->
    includes errorCode "session_invalidated" = false ->
    String.eqb errorCode captcha_invalid = false ->
    String.eqb errorCode two_factor_required = true ->
    login_run W email password totp blob captcha attempt t
      (loginMFA W (Some totp)
         (posted email password captcha attempt csrfToken t))
| run_unrecognized captcha attempt t csrfToken e errBody errorCode :
    credential_post_fails W email password captcha attempt t csrfToken e ->
    structured e = Some (errBody, errorCode) ->
    includes errorCode "session_invalidated" = false ->
    String.eqb errorCode captcha_invalid = false ->
    String.eqb errorCode two_factor_required = false ->
    login_run W email password totp blob captcha attempt t
      (Throw e,
       posted email password captcha attempt csrfToken t
         ++ [Log Lerror (ObjErrBody errBody) "Login failed"])
| run_unstructured captcha attempt t csrfToken e :
    credential_post_fails W email password captcha attempt t csrfToken e ->
    structured e = None ->
    login_run W email password totp blob captcha attempt t
      (Throw e,
       posted email password captcha attempt csrfToken t
         ++ [Log Lerror (ObjErr e) "Login failed"]).

(** ** Scenarios *)

(** The error the HTTP client throws for a response with a structured
    body. *)
Definition http_error (errorCode : string) : Err.t :=
  {| Err.name := "HTTPError";
     Err.message := "Response code 400 (Bad Request)";
     Err.response :=
       Some {| Err.body := Some {| Err.errorCode := Some errorCode |} |} |}.

(** A code of the session-invalidated family, and a code that [login]
    does not know. *)
Definition session_invalidated : string :=
  "errors.com.epicgames.accountportal.session_invalidated".

(** A failure below HTTP: no response at all. *)
Definition network_error : Err.t :=
  {| Err.name := "RequestError";
     Err.message := "getaddrinfo ENOTFOUND";
     Err.response := None |}.

Definition ok_response (sid : option string) : Response :=
  {| set_cookie := [ {| name := "XSRF-TOKEN"; value := "abc" |} ];
     body := {| sid := sid; arkose_data := {| blob := "blob" |} |} |}.

(** A server that fails the n-th credential POST with the n-th code of
    [login_errors] and accepts it afterwards, and that hands out a session
    identifier once [logged_in] holds of the history. *)
Definition scripted (login_errors : list string) (logged_in : Trace -> bool)
  : World :=
  {| request := fun t r =>
       match r with
       | Post LOGIN_ENDPOINT _ _ =>
           match nth_error login_errors (credential_posts t) with
           | Some errorCode => Throw (http_error errorCode)
           | None => Return (ok_response None)
           end
       | _ => Return (ok_response (if logged_in t then Some "sid" else None))
       end;
     notifyManualCaptcha := fun _ _ _ => Return "solved";
     TOTP_generate := fun _ _ => Return "123456" |}.

(** A configuration with one account that has no TOTP secret. *)
Definition one_account : Config.t :=
  {| Config.accounts :=
       [ {| Config.email := "user@example.com";
            Config.password := "hunter2";
            Config.totp := None |} ] |}.

(** The session exists once a credential POST has been made. *)
Definition after_login (t : Trace) : bool := Nat.ltb 0 (credential_posts t).

(** No network at all. *)
Definition offline : World :=
  {| request := fun _ _ => Throw network_error;
     notifyManualCaptcha := fun _ _ _ => Return "solved";
     TOTP_generate := fun _ _ => Return "123456" |}.

(** ** The stage of one [getCsrf] call *)

(** The history at the moment [getCsrf] sends its request. *)
Definition csrf_requesting (t : Trace) : Trace :=
  (t ++ [Log Ldebug NoObj "Refreshing CSRF"])
    ++ [Log Ltrace (ObjUrl CSRF_ENDPOINT) "CSRF request"].

(** ** The stages of one [loginMFA] call *)

(** The history once [loginMFA] has logged its entry. *)
Definition mfa_entered (t : Trace) : Trace :=
  t ++ [Log Ldebug NoObj "Logging in with MFA"].

(** The body of the MFA POST. *)
Definition mfa_json (code : string) : JsonBody :=
  MFAJson {| code := code; method := "authenticator"; rememberDevice := true |}.

(** The history at the moment the MFA POST is sent: the entry, the CSRF
    fetch, the generation of the code and the trace line of the request. *)
Definition mfa_requesting (secret code : string) (t : Trace) : Trace :=
  mfa_entered t ++ csrf_events ++
  [CallTotp secret;
   Log Ltrace (ObjBodyUrl (mfa_json code) MFA_LOGIN_ENDPOINT) "MFA request"].

(** The runs of [loginMFA], one rule per way the method ends;
    [loginMFA_run_loginMFA] below shows that every call follows one of
    them. *)
Inductive loginMFA_run (W : World) (totpSecret : option string) (t : Trace)
  : Outcome unit * Trace -> Prop :=
| mfa_no_secret :
    truthy totpSecret = false ->
    loginMFA_run W totpSecret t
      (Throw (Error "TOTP required for MFA login"), mfa_entered t)
| mfa_csrf_throws e :
    truthy totpSecret = true ->
    fst (getCsrf W (mfa_entered t)) = Throw e ->
    loginMFA_run W totpSecret t (Throw e, mfa_entered t ++ csrf_events)
| mfa_totp_throws csrfToken e :
    truthy totpSecret = true ->
    fst (getCsrf W (mfa_entered t)) = Return csrfToken ->
    TOTP_generate W (mfa_entered t ++ csrf_events)
      (default_arg "" totpSecret) = Throw e ->
    loginMFA_run W totpSecret t
      (Throw e,
       mfa_entered t ++ csrf_events ++ [CallTotp (default_arg "" totpSecret)])
| mfa_post_throws csrfToken code e :
    truthy totpSecret = true ->
    fst (getCsrf W (mfa_entered t)) = Return csrfToken ->
    TOTP_generate W (mfa_entered t ++ csrf_events)
      (default_arg "" totpSecret) = Return code ->
    request W (mfa_requesting (default_arg "" totpSecret) code t)
      (Post MFA_LOGIN_ENDPOINT (mfa_json code) csrfToken) = Throw e ->
    loginMFA_run W totpSecret t
      (Throw e,
       mfa_requesting (default_arg "" totpSecret) code t
         ++ [CallHttp (Post MFA_LOGIN_ENDPOINT (mfa_json code) csrfToken)])
| mfa_post_returns csrfToken code resp :
    truthy totpSecret = true ->
    fst (getCsrf W (mfa_entered t)) = Return csrfToken ->
    TOTP_generate W (mfa_entered t ++ csrf_events)
      (default_arg "" totpSecret) = Return code ->
    request W (mfa_requesting (default_arg "" totpSecret) code t)
      (Post MFA_LOGIN_ENDPOINT (mfa_json code) csrfToken) = Return resp ->
    loginMFA_run W totpSecret t
      (Return tt,
       mfa_requesting (default_arg "" totpSecret) code t
         ++ [CallHttp (Post MFA_LOGIN_ENDPOINT (mfa_json code) csrfToken)]).

(** ** More stages of [refreshAndSid] *)

(** The history once the redirect request has been sent. *)
Definition redirected (csrfToken : string) (t : Trace) : Trace :=
  redirecting t ++ [CallHttp (redirect_request csrfToken)].

Definition sid_request (sid : string) : Request :=
  Get SET_SID_ENDPOINT None (Some (SidSearchParams sid)) None.

Definition store_request : Request :=
  Get STORE_HOMEPAGE None None (Some "text").

(** The history at the moment the SID-setting request is sent. *)
Definition sid_requesting (csrfToken sid : string) (t : Trace) : Trace :=
  redirected csrfToken t ++
  [Log Ltrace (ObjParamsUrl (SidSearchParams sid) SET_SID_ENDPOINT)
     "Set SID request"].

(** The history at the moment the store homepage is requested. *)
Definition store_requesting (csrfToken sid : string) (sidResp : Response)
    (t : Trace) : Trace :=
  sid_requesting csrfToken sid t ++
  [CallHttp (sid_request sid);
   Log Ltrace (ObjHeaders (set_cookie sidResp)) "Set SID response headers";
   Log Ltrace (ObjUrl STORE_HOMEPAGE) "Request store homepage"].

(** The runs of [refreshAndSid], one rule per way the method ends;
    [refreshAndSid_run_refreshAndSid] below shows that every call follows
    one of them. *)
Inductive refreshAndSid_run (W : World) (error : bool) (t : Trace)
  : Outcome bool * Trace -> Prop :=
| sid_csrf_throws e :
    fst (getCsrf W (t ++ [Log Ldebug NoObj "Setting SID"])) = Throw e ->
    refreshAndSid_run W error t
      (Throw e, (t ++ [Log Ldebug NoObj "Setting SID"]) ++ csrf_events)
| sid_redirect_throws csrfToken e :
    fst (getCsrf W (t ++ [Log Ldebug NoObj "Setting SID"])) =
      Return csrfToken ->
    request W (redirecting t) (redirect_request csrfToken) = Throw e ->
    refreshAndSid_run W error t (Throw e, redirected csrfToken t)
| sid_missing csrfToken redirectResp :
    fst (getCsrf W (t ++ [Log Ldebug NoObj "Setting SID"])) =
      Return csrfToken ->
    request W (redirecting t) (redirect_request csrfToken) =
      Return redirectResp ->
    truthy (sid (body redirectResp)) = false ->
    refreshAndSid_run W error t
      ((if error then Throw (Error "Sid returned null") else Return false),
       redirected csrfToken t)
| sid_set_throws csrfToken redirectResp s e :
    fst (getCsrf W (t ++ [Log Ldebug NoObj "Setting SID"])) =
      Return csrfToken ->
    request W (redirecting t) (redirect_request csrfToken) =
      Return redirectResp ->
    sid (body redirectResp) = Some s ->
    truthy (Some s) = true ->
    request W (sid_requesting csrfToken s t) (sid_request s) = Throw e ->
    refreshAndSid_run W error t
      (Throw e, sid_requesting csrfToken s t ++ [CallHttp (sid_request s)])
| sid_store_throws csrfToken redirectResp s sidResp e :
    fst (getCsrf W (t ++ [Log Ldebug NoObj "Setting SID"])) =
      Return csrfToken ->
    request W (redirecting t) (redirect_request csrfToken) =
      Return redirectResp ->
    sid (body redirectResp) = Some s ->
    truthy (Some s) = true ->
    request W (sid_requesting csrfToken s t) (sid_request s) =
      Return sidResp ->
    request W (store_requesting csrfToken s sidResp t) store_request =
      Throw e ->
    refreshAndSid_run W error t
      (Throw e,
       store_requesting csrfToken s sidResp t ++ [CallHttp store_request])
| sid_done csrfToken redirectResp s sidResp storeResp :
    fst (getCsrf W (t ++ [Log Ldebug NoObj "Setting SID"])) =
      Return csrfToken ->
    request W (redirecting t) (redirect_request csrfToken) =
      Return redirectResp ->
    sid (body redirectResp) = Some s ->
    truthy (Some s) = true ->
    request W (sid_requesting csrfToken s t) (sid_request s) =
      Return sidResp ->
    request W (store_requesting csrfToken s sidResp t) store_request =
      Return storeResp ->
    refreshAndSid_run W error t
      (Return true,
       store_requesting csrfToken s sidResp t
         ++ [CallHttp store_request;
             Log Ltrace (ObjHeaders (set_cookie storeResp))
               "Store homepage response headers"]).

(** ** More observations *)

(** [attempt], [attempt + 1], ... : the counters of [n] successive entries
    into [login]. *)
Fixpoint count_up (attempt : Z) (n : nat) : list Z :=
  match n with
  | O => []
  | S n' => attempt :: count_up (attempt + 1) n'
  end.

(** The requests a run of [login] for [email] and [password] may send: the
    CSRF fetch, the credential POST for this account, the MFA POST. *)
Definition login_traffic (email password : string) (r : Request) : Prop :=
  r = Get CSRF_ENDPOINT None None None
  \/ (exists captcha csrfToken,
        r = Post LOGIN_ENDPOINT (login_json email password captcha) csrfToken)
  \/ (exists code csrfToken,
        r = Post MFA_LOGIN_ENDPOINT (mfa_json code) csrfToken).

(** An event that is not a CAPTCHA call, or is the call for the login site
    key with [blob]. *)
Definition captcha_for (blob : option string) (ev : Event) : Prop :=
  match ev with
  | CallCaptcha key blob' => key = EpicArkosePublicKey.LOGIN /\ blob' = blob
  | _ => True
  end.

(** The token a CSRF fetch yields: the value of the cookie [XSRF-TOKEN] of
    the reply, if there is one. *)
Definition csrf_cookie (reply : Outcome Response) : option string :=
  match reply with
  | Return resp =>
      match cookieParser (set_cookie resp) "XSRF-TOKEN" with
      | Some c => Some (value c)
      | None => None
      end
  | Throw _ => None
  end.

(** Every POST among the events [evs] that follow the history [h] carries
    a fresh token: the one yielded by a CSRF fetch made after the previous
    POST.  [token] is the token fetched and not yet used when [evs]
    starts. *)
Fixpoint tokens_fresh (W : World) (h : Trace) (token : option string)
    (evs : list Event) : bool :=
  match evs with
  | [] => true
  | CallHttp (Get CSRF_ENDPOINT xsrf params responseType) :: rest =>
      let r := Get CSRF_ENDPOINT xsrf params responseType in
      tokens_fresh W (h ++ [CallHttp r]) (csrf_cookie (request W h r)) rest
  | CallHttp (Post url json xsrf) :: rest =>
      match token with
      | Some csrfToken => String.eqb csrfToken xsrf
      | None => false
      end
      && tokens_fresh W (h ++ [CallHttp (Post url json xsrf)]) None rest
  | ev :: rest => tokens_fresh W (h ++ [ev]) token rest
  end.

(** The token fetched and not yet used after the events [evs]. *)
Fixpoint token_after (W : World) (h : Trace) (token : option string)
    (evs : list Event) : option string :=
  match evs with
  | [] => token
  | CallHttp (Get CSRF_ENDPOINT xsrf params responseType) :: rest =>
      let r := Get CSRF_ENDPOINT xsrf params responseType in
      token_after W (h ++ [CallHttp r]) (csrf_cookie (request W h r)) rest
  | CallHttp (Post url json xsrf) :: rest =>
      token_after W (h ++ [CallHttp (Post url json xsrf)]) None rest
  | ev :: rest => token_after W (h ++ [ev]) token rest
  end.

(** The events one [login] call adds up to and including its credential
    POST. *)
Definition post_block (email password captcha : string) (attempt : Z)
    (csrfToken : string) : list Event :=
  Log Ldebug (ObjAttempt email captcha attempt) "Attempting login"
  :: csrf_events
  ++ [Log Ltrace
        (ObjBodyUrl (login_json email password captcha) LOGIN_ENDPOINT)
        "Login request"]
  ++ [CallHttp
        (Post LOGIN_ENDPOINT (login_json email password captcha) csrfToken)].

(** ** More scenarios *)

(** The world [W] with a CAPTCHA channel that gives up. *)
Definition captcha_down (W : World) : World :=
  {| request := request W;
     notifyManualCaptcha := fun _ _ _ => Throw (Error "captcha timed out");
     TOTP_generate := TOTP_generate W |}.

(** A response of the CSRF endpoint that sets other cookies only. *)
Definition no_token_response : Response :=
  {| set_cookie := [ {| name := "EPIC_DEVICE"; value := "d1" |} ];
     body := {| sid := None; arkose_data := {| blob := "blob" |} |} |}.

(** A server whose CSRF endpoint forgets the token. *)
Definition forgetful : World :=
  {| request := fun _ _ => Return no_token_response;
     notifyManualCaptcha := fun _ _ _ => Return "solved";
     TOTP_generate := fun _ _ => Return "123456" |}.

(** A server that sets the token twice, with the same value, among other
    cookies. *)
Definition two_tokens_response : Response :=
  {| set_cookie :=
       [ {| name := "XSRF-TOKEN"; value := "abc" |};
         {| name := "EPIC_DEVICE"; value := "d1" |};
         {| name := "XSRF-TOKEN"; value := "abc" |} ];
     body := {| sid := None; arkose_data := {| blob := "blob" |} |} |}.

Definition repeating : World :=
  {| request := fun _ _ => Return two_tokens_response;
     notifyManualCaptcha := fun _ _ _ => Return "solved";
     TOTP_generate := fun _ _ => Return "123456" |}.

(** An error with the structured body whose code is the empty string. *)
Definition empty_code_error : Err.t := http_error "".

(** No account configured. *)
Definition no_account : Config.t := {| Config.accounts := [] |}.

(** ** Stepping through a computation *)

Section Steps.

Variable W : World.

Lemma bind_Return {A B} (m : M A) (k : A -> M B) t a t' :
  m t = (Return a, t') -> bind m k t = k a t'.
Proof. intros H. unfold bind. rewrite H. reflexivity. Qed.

Lemma bind_Throw {A B} (m : M A) (k : A -> M B) t e t' :
  m t = (Throw e, t') -> bind m k t = (Throw e, t').
Proof. intros H. unfold bind. rewrite H. reflexivity. Qed.

Lemma bind_emit {B} (ev : Event) (k : unit -> M B) t :
  bind (emit ev) k t = k tt (t ++ [ev]).
Proof. reflexivity. Qed.

(** [getCsrf] always leaves the same three events, whether it returns the
    token or throws. *)
Lemma getCsrf_trace t : snd (getCsrf W t) = t ++ csrf_events.
Proof.
  unfold getCsrf, L_debug, L_trace, request_get, csrf_events.
  rewrite !bind_emit. unfold bind.
  destruct (request W _ _) as [resp | e]; cbn.
  - destruct (cookieParser _ _); cbn; rewrite <- !app_assoc; reflexivity.
  - rewrite <- !app_assoc; reflexivity.
Qed.

Lemma getCsrf_run t o :
  fst (getCsrf W t) = o -> getCsrf W t = (o, t ++ csrf_events).
Proof.
  intros H. rewrite <- getCsrf_trace, <- H. apply surjective_pairing.
Qed.

(** *** The paths through [login] *)

Section OneCall.

Variables (email password : string) (captcha0 totp0 blob : option string).
Variables (attempt0 : option Z) (t : Trace).

(* The arguments after their defaults, named as in the method's body. *)
Local Notation captcha := (default_arg "" captcha0).
Local Notation totp := (default_arg "" totp0).
Local Notation attempt := (default_arg 0%Z attempt0).

Lemma login_csrf_throws e :
  fst (getCsrf W (entered email captcha attempt t)) = Throw e ->
  login W email password captcha0 totp0 blob attempt0 t =
  (Throw e, entered email captcha attempt t ++ csrf_events).
Proof.
  intros Hcsrf. apply getCsrf_run in Hcsrf.
  rewrite login_equation_1. cbv zeta.
  unfold L_debug at 1. rewrite bind_emit.
  apply (bind_Throw _ _ _ _ _ Hcsrf).
Qed.

Lemma login_guard_fires csrfToken :
  fst (getCsrf W (entered email captcha attempt t)) = Return csrfToken ->
  (attempt > 5)%Z ->
  login W email password captcha0 totp0 blob attempt0 t =
  (Throw (Error "Too many login attempts"),
   entered email captcha attempt t ++ csrf_events).
Proof.
  intros Hcsrf Hgt. apply getCsrf_run in Hcsrf.
  rewrite login_equation_1. cbv zeta.
  unfold L_debug at 1. rewrite bind_emit.
  rewrite (bind_Return _ _ _ _ _ Hcsrf).
  destruct (Z_gt_dec attempt 5); [reflexivity | lia].
Qed.

Lemma login_logged_in csrfToken resp :
  (attempt <= 5)%Z ->
  fst (getCsrf W (entered email captcha attempt t)) = Return csrfToken ->
  request W (requesting email password captcha attempt t)
    (Post LOGIN_ENDPOINT (login_json email password captcha) csrfToken)
  = Return resp ->
  login W email password captcha0 totp0 blob attempt0 t =
  (Return tt, posted email password captcha attempt csrfToken t
                ++ [Log Ldebug NoObj "Logged in"]).
Proof.
  intros Hle Hcsrf Hpost. apply getCsrf_run in Hcsrf.
  rewrite login_equation_1. cbv zeta.
  unfold L_debug at 1. rewrite bind_emit.
  rewrite (bind_Return _ _ _ _ _ Hcsrf).
  destruct (Z_gt_dec attempt 5) as [Hgt | _]; [lia |].
  unfold try_catch, L_trace at 1. rewrite bind_emit.
  unfold request_post at 1, bind at 1.
  unfold posted, requesting, login_json in *.
  rewrite app_assoc in Hpost. rewrite Hpost.
  cbn. rewrite <- !app_assoc. reflexivity.
Qed.

(** The [catch] block, entered with the error of the credential POST. *)
Lemma login_catch csrfToken e :
  credential_post_fails W email password captcha attempt t csrfToken e ->
  login W email password captcha0 totp0 blob attempt0 t =
  match structured e with
  | Some (errBody, errorCode) =>
      if includes errorCode "session_invalidated" then
        login W email password (Some captcha) (Some totp) blob
          (Some (attempt + 1)%Z)
          (posted email password captcha attempt csrfToken t
             ++ [Log Ldebug NoObj "Session invalidated, retrying"])
      else if String.eqb errorCode captcha_invalid then
        bind (call_notifyManualCaptcha W EpicArkosePublicKey.LOGIN blob)
          (fun captchaToken =>
             login W email password (Some captchaToken)
               (Some totp) blob (Some (attempt + 1)%Z))
          (posted email password captcha attempt csrfToken t
             ++ [Log Ldebug NoObj "Captcha required"])
      else if String.eqb errorCode two_factor_required then
        loginMFA W (Some totp)
          (posted email password captcha attempt csrfToken t)
      else
        (Throw e,
         posted email password captcha attempt csrfToken t
           ++ [Log Lerror (ObjErrBody errBody) "Login failed"])
  | None =>
      (Throw e,
       posted email password captcha attempt csrfToken t
         ++ [Log Lerror (ObjErr e) "Login failed"])
  end.
Proof.
  intros (Hle & Hcsrf & Hpost). apply getCsrf_run in Hcsrf.
  rewrite login_equation_1. cbv zeta.
  unfold L_debug at 1. rewrite bind_emit.
  rewrite (bind_Return _ _ _ _ _ Hcsrf).
  destruct (Z_gt_dec attempt 5) as [Hgt | _]; [lia |].
  unfold try_catch, L_trace at 1. rewrite bind_emit.
  unfold request_post at 1, bind at 1.
  unfold posted, requesting, login_json in *.
  rewrite app_assoc in Hpost. rewrite Hpost.
  fold captcha_invalid two_factor_required.
  destruct (structured e) as [[errBody errorCode] |].
  - destruct (includes errorCode "session_invalidated");
      [| destruct (String.eqb errorCode captcha_invalid);
         [| destruct (String.eqb errorCode two_factor_required)]];
      unfold L_debug, L_error; rewrite ?bind_emit;
      rewrite <- !app_assoc; reflexivity.
  - unfold L_error. rewrite bind_emit. rewrite <- !app_assoc. reflexivity.
Qed.

End OneCall.

(** Every call of [login] has its derivation. *)
Lemma login_run_login email password captcha totp blob attempt t :
  login_run W email password (default_arg "" totp) blob
    (default_arg "" captcha) (default_arg 0%Z attempt) t
    (login W email password captcha totp blob attempt t).
Proof.
  remember (attempts_left attempt) as n eqn:Hn.
  assert (Hle : attempts_left attempt <= n) by lia. clear Hn.
  revert captcha totp attempt t Hle.
  induction n as [| n IH]; intros captcha totp attempt t Hn;
    unfold attempts_left in Hn;
    set (c := default_arg "" captcha); set (a := default_arg 0%Z attempt);
    fold a in Hn;
    (destruct (fst (getCsrf W (entered email c a t))) as [csrfToken | e]
       eqn:Hcsrf;
     [| rewrite (login_csrf_throws _ _ _ _ _ _ _ _ Hcsrf);
        apply run_csrf_throws, Hcsrf]);
    (destruct (Z_gt_dec a 5) as [Hgt | Hngt];
     [rewrite (login_guard_fires _ _ _ _ _ _ _ _ Hcsrf Hgt);
      apply (run_limit _ _ _ _ _ _ _ _ _ Hcsrf Hgt) |]);
    [lia |].
  assert (Ha : (a <= 5)%Z) by lia.
  destruct (request W (requesting email password c a t)
              (Post LOGIN_ENDPOINT (login_json email password c) csrfToken))
    as [resp | e] eqn:Hpost.
  { rewrite (login_logged_in _ _ _ _ _ _ _ _ _ Ha Hcsrf Hpost).
    apply (run_logged_in _ _ _ _ _ _ _ _ _ _ Ha Hcsrf Hpost). }
  assert (Hfail : credential_post_fails W email password c a t csrfToken e)
    by (repeat split; assumption).
  rewrite (login_catch _ _ _ _ _ _ _ _ _ Hfail).
  assert (Hnext : attempts_left (Some (a + 1)%Z) <= n)
    by (unfold attempts_left; cbn [default_arg]; lia).
  destruct (structured e) as [[errBody errorCode] |] eqn:Hs;
    [| apply (run_unstructured _ _ _ _ _ _ _ _ _ _ Hfail Hs)].
  destruct (includes errorCode "session_invalidated") eqn:Hinc.
  { eapply run_session_invalidated; eauto.
    apply (IH (Some c) (Some (default_arg "" totp)) (Some (a + 1)%Z)), Hnext. }
  destruct (String.eqb errorCode captcha_invalid) eqn:Hcap.
  { unfold bind, call_notifyManualCaptcha.
    destruct (notifyManualCaptcha W _ _ _) as [captchaToken | e'] eqn:Hsolve.
    - eapply run_captcha; eauto.
      rewrite <- app_assoc.
      apply (IH (Some captchaToken) (Some (default_arg "" totp))
               (Some (a + 1)%Z)), Hnext.
    - rewrite <- app_assoc. eapply run_captcha_throws; eauto. }
  destruct (String.eqb errorCode two_factor_required) eqn:Hmfa.
  - eapply run_mfa; eauto.
  - eapply run_unrecognized; eauto.
Qed.

(** *** [loginMFA] *)

Lemma loginMFA_without_secret totpSecret t :
  truthy totpSecret = false ->
  loginMFA W totpSecret t =
  (Throw (Error "TOTP required for MFA login"),
   t ++ [Log Ldebug NoObj "Logging in with MFA"]).
Proof.
  intros H. unfold loginMFA, L_debug. rewrite bind_emit, H. reflexivity.
Qed.

End Steps.

(** ** Observations distribute over the concatenation of histories *)

Lemma network_calls_app t u :
  network_calls (t ++ u) = network_calls t ++ network_calls u.
Proof.
  induction t as [| [] t IH]; cbn; rewrite ?IH; reflexivity.
Qed.

Lemma credential_posts_app t u :
  credential_posts (t ++ u) = credential_posts t + credential_posts u.
Proof.
  unfold credential_posts.
  rewrite network_calls_app, filter_app, length_app. reflexivity.
Qed.

Lemma mfa_posts_app t u : mfa_posts (t ++ u) = mfa_posts t + mfa_posts u.
Proof.
  unfold mfa_posts.
  rewrite network_calls_app, filter_app, length_app. reflexivity.
Qed.

Lemma attempts_logged_app t u :
  attempts_logged (t ++ u) = attempts_logged t ++ attempts_logged u.
Proof.
  induction t as [| [? [] ?| | |] t IH]; cbn; rewrite ?IH; reflexivity.
Qed.

Lemma captcha_calls_app t u :
  captcha_calls (t ++ u) = captcha_calls t + captcha_calls u.
Proof. unfold captcha_calls. rewrite filter_app, length_app. reflexivity. Qed.

Lemma totp_calls_app t u : totp_calls (t ++ u) = totp_calls t + totp_calls u.
Proof. unfold totp_calls. rewrite filter_app, length_app. reflexivity. Qed.

Lemma mfa_entries_app t u :
  mfa_entries (t ++ u) = mfa_entries t + mfa_entries u.
Proof. unfold mfa_entries. rewrite filter_app, length_app. reflexivity. Qed.

(** Events without an entry into [login] and without a credential POST
    contribute no posting attempt. *)
Lemma posting_attempts_quiet current evs :
  attempts_logged evs = [] -> credential_posts evs = 0 ->
  posting_attempts current evs = [].
Proof.
  induction evs as [| ev evs IH]; [reflexivity |].
  destruct ev as [level [] msg | [url ? ? ? | [] json xsrf] | |];
    cbn; intros Hlog Hposts; try discriminate; apply IH; assumption.
Qed.

(** The stages of a [login] call as the events added to the history. *)
Lemma posted_events email password captcha attempt csrfToken t :
  posted email password captcha attempt csrfToken t =
  t ++ [Log Ldebug (ObjAttempt email captcha attempt) "Attempting login";
        Log Ldebug NoObj "Refreshing CSRF";
        Log Ltrace (ObjUrl CSRF_ENDPOINT) "CSRF request";
        CallHttp (Get CSRF_ENDPOINT None None None);
        Log Ltrace
          (ObjBodyUrl (login_json email password captcha) LOGIN_ENDPOINT)
          "Login request";
        CallHttp
          (Post LOGIN_ENDPOINT (login_json email password captcha) csrfToken)].
Proof.
  unfold posted, requesting, entered, csrf_events.
  rewrite <- !app_assoc. reflexivity.
Qed.

Lemma entered_events email captcha attempt t :
  entered email captcha attempt t ++ csrf_events =
  t ++ [Log Ldebug (ObjAttempt email captcha attempt) "Attempting login";
        Log Ldebug NoObj "Refreshing CSRF";
        Log Ltrace (ObjUrl CSRF_ENDPOINT) "CSRF request";
        CallHttp (Get CSRF_ENDPOINT None None None)].
Proof.
  unfold entered, csrf_events. rewrite <- !app_assoc. reflexivity.
Qed.

(** Puts a history into the shape [t ++ events]. *)
Ltac flatten_trace :=
  rewrite ?posted_events, ?entered_events; rewrite <- ?app_assoc.

(** ** [loginMFA] on its own *)

(** What a call of [loginMFA] adds to the history: one entry, no
    credential POST and no entry into [login]; without a secret, no
    network request and no one-time code either. *)
Lemma loginMFA_events W totpSecret t :
  exists evs,
    snd (loginMFA W totpSecret t) = t ++ evs
    /\ mfa_entries evs = 1
    /\ credential_posts evs = 0
    /\ attempts_logged evs = []
    /\ captcha_calls evs = 0
    /\ (truthy totpSecret = false ->
        network_calls evs = [] /\ totp_calls evs = 0).
Proof.
  unfold loginMFA, L_debug. rewrite bind_emit.
  destruct (truthy totpSecret) eqn:Hs; cbn [negb].
  - unfold bind at 1.
    pose proof (getCsrf_trace W (t ++ [Log Ldebug NoObj "Logging in with MFA"]))
      as Ht.
    destruct (getCsrf W _) as [[csrfToken | e] t1]; cbn [snd] in Ht; subst t1;
      unfold csrf_events.
    + unfold bind, call_TOTP_generate, L_trace, emit, request_post.
      destruct (TOTP_generate W _ _) as [code | e].
      * destruct (request W _ _) as [resp | e]; cbn [snd];
          flatten_trace; eexists; (split; [reflexivity |]);
          repeat split; try discriminate; reflexivity.
      * cbn [snd]. flatten_trace. eexists. split; [reflexivity |].
        repeat split; try discriminate; reflexivity.
    + cbn [snd]. flatten_trace. eexists. split; [reflexivity |].
      repeat split; try discriminate; reflexivity.
  - cbn [snd throw]. eexists. split; [reflexivity |].
    repeat split; reflexivity.
Qed.

(** ** Whole retry chains *)

Ltac count := unfold attempts_left in *; cbn [default_arg] in *; lia.

(** The retry chain is bounded by the attempt counter: a run of [login]
    entered at [attempt] sends at most [6 - attempt] credential POSTs,
    each of them at a counter of at most 5, enters [login] at most once
    more than that, and never with a counter above 6 (or above the one it
    was started with). *)
Lemma login_run_bounded W email password totp blob captcha attempt t r :
  login_run W email password totp blob captcha attempt t r ->
  exists evs,
    snd r = t ++ evs
    /\ credential_posts evs <= attempts_left (Some attempt)
    /\ length (attempts_logged evs) <= S (attempts_left (Some attempt))
    /\ Forall (fun k => (k <= Z.max attempt 6)%Z) (attempts_logged evs)
    /\ forall current,
         Forall (fun k => (k <= 5)%Z) (posting_attempts current evs).
Proof.
  induction 1 as
    [ captcha attempt t e Hcsrf
    | captcha attempt t csrfToken Hcsrf Hgt
    | captcha attempt t csrfToken resp Hle Hcsrf Hpost
    | captcha attempt t csrfToken e errBody errorCode r Hfail Hs Hinc Hrun IH
    | captcha attempt t csrfToken e errBody errorCode captchaToken r
        Hfail Hs Hinc Hcap Hsolve Hrun IH
    | captcha attempt t csrfToken e errBody errorCode e' Hfail Hs Hinc Hcap
        Hsolve
    | captcha attempt t csrfToken e errBody errorCode Hfail Hs Hinc Hcap Hmfa
    | captcha attempt t csrfToken e errBody errorCode Hfail Hs Hinc Hcap Hmfa
    | captcha attempt t csrfToken e Hfail Hs ].
  1-3, 6, 8-9:
    try (destruct Hfail as (Hle & _)); cbn [snd]; flatten_trace;
    eexists; (split; [reflexivity |]); cbn;
    (repeat split; [count | count | |]); repeat constructor; lia.
  - (* session invalidated: one POST, then the chain of the retry *)
    destruct Hfail as (Hle & _).
    destruct IH as (evs & Hevs & Hposts & Hlen & Hall & Hposting).
    revert Hevs. flatten_trace. intros Hevs.
    eexists. split; [exact Hevs |].
    rewrite !credential_posts_app, !attempts_logged_app. cbn.
    repeat split; [count | count | |].
    + constructor; [lia |].
      eapply Forall_impl; [| exact Hall]. cbn. intros k Hk. lia.
    + intros current. constructor; [exact Hle | apply Hposting].
  - (* captcha: one POST, one resolver call, then the chain of the retry *)
    destruct Hfail as (Hle & _).
    destruct IH as (evs & Hevs & Hposts & Hlen & Hall & Hposting).
    revert Hevs. flatten_trace. intros Hevs.
    eexists. split; [exact Hevs |].
    rewrite !credential_posts_app, !attempts_logged_app. cbn.
    repeat split; [count | count | |].
    + constructor; [lia |].
      eapply Forall_impl; [| exact Hall]. cbn. intros k Hk. lia.
    + intros current. constructor; [exact Hle | apply Hposting].
  - (* two-factor: one POST, then [loginMFA] *)
    destruct Hfail as (Hle & _).
    destruct (loginMFA_events W (Some totp)
                (posted email password captcha attempt csrfToken t))
      as (evs & Hevs & _ & Hposts & Hlog & _).
    revert Hevs. flatten_trace. intros Hevs.
    eexists. split; [exact Hevs |].
    rewrite !credential_posts_app, !attempts_logged_app, Hposts, Hlog. cbn.
    repeat split; [count | count | |].
    + repeat constructor. lia.
    + intros current. rewrite (posting_attempts_quiet _ _ Hlog Hposts).
      repeat constructor. exact Hle.
Qed.

(** Without a TOTP secret no run of [login] reaches the MFA endpoint or
    generates a one-time code, however many retries it goes through. *)
Lemma login_run_without_totp W email password totp blob captcha attempt t r :
  truthy (Some totp) = false ->
  login_run W email password totp blob captcha attempt t r ->
  exists evs,
    snd r = t ++ evs /\ mfa_posts evs = 0 /\ totp_calls evs = 0.
Proof.
  intros Hno.
  induction 1 as
    [ captcha attempt t e Hcsrf
    | captcha attempt t csrfToken Hcsrf Hgt
    | captcha attempt t csrfToken resp Hle Hcsrf Hpost
    | captcha attempt t csrfToken e errBody errorCode r Hfail Hs Hinc Hrun IH
    | captcha attempt t csrfToken e errBody errorCode captchaToken r
        Hfail Hs Hinc Hcap Hsolve Hrun IH
    | captcha attempt t csrfToken e errBody errorCode e' Hfail Hs Hinc Hcap
        Hsolve
    | captcha attempt t csrfToken e errBody errorCode Hfail Hs Hinc Hcap Hmfa
    | captcha attempt t csrfToken e errBody errorCode Hfail Hs Hinc Hcap Hmfa
    | captcha attempt t csrfToken e Hfail Hs ].
  1-3, 6, 8-9:
    cbn [snd]; flatten_trace; eexists; (split; [reflexivity |]);
    split; reflexivity.
  1-2:
    destruct IH as (evs & Hevs & Hmfa & Htotp);
    revert Hevs; flatten_trace; intros Hevs;
    eexists; (split; [exact Hevs |]);
    rewrite !mfa_posts_app, !totp_calls_app, Hmfa, Htotp; split; reflexivity.
  destruct (loginMFA_events W (Some totp)
              (posted email password captcha attempt csrfToken t))
    as (evs & Hevs & _ & _ & _ & _ & Hquiet).
  destruct (Hquiet Hno) as (Hnet & Htotp).
  revert Hevs. flatten_trace. intros Hevs.
  eexists. split; [exact Hevs |].
  rewrite !mfa_posts_app, !totp_calls_app, Htotp.
  unfold mfa_posts at 2. rewrite Hnet. split; reflexivity.
Qed.

(** ** The attempt limit *)

(** C1 (as amended): a call of [login] with [attempt > 5] fails without
    issuing the credential POST.  The CSRF token is fetched before the
    guard is reached: when that fetch succeeds the failure is the
    attempt-limit error 'Too many login attempts', and when it fails the
    failure is the error of the fetch. *)
Theorem login_attempt_limit W email password captcha totp blob attempt t :
  (attempt > 5)%Z ->
  let t0 := entered email (default_arg "" captcha) attempt t in
  login W email password captcha totp blob (Some attempt) t =
    (Throw match fst (getCsrf W t0) with
           | Return _ => Error "Too many login attempts"
           | Throw e => e
           end,
     t0 ++ csrf_events)
  /\ credential_posts (t0 ++ csrf_events) = credential_posts t.
Proof.
  intros Hgt t0. split.
  - destruct (fst (getCsrf W t0)) as [csrfToken | e] eqn:Hcsrf.
    + apply (login_guard_fires W _ _ _ _ _ (Some attempt) _ _ Hcsrf Hgt).
    + apply (login_csrf_throws W _ _ _ _ _ (Some attempt) _ _ Hcsrf).
  - subst t0. rewrite entered_events, credential_posts_app. cbn. lia.
Qed.

Lemma login_attempt_limit_witness :
  login (scripted [] (fun _ => false)) "user@example.com" "hunter2"
    None None None (Some 6%Z) [] =
    (Throw (Error "Too many login attempts"),
     entered "user@example.com" "" 6 [] ++ csrf_events).
Proof.
  apply (login_attempt_limit (scripted [] (fun _ => false))
           "user@example.com" "hunter2" None None None 6 []).
  reflexivity.
Defined.

(** C1 as stated fails when the CSRF fetch itself fails: with no network,
    [login] at attempt 6 ends in the network error of the fetch, not in the
    attempt-limit error. *)
Lemma login_attempt_limit_csrf_failure :
  (6 > 5)%Z
  /\ fst (login offline "user@example.com" "hunter2" None None None
            (Some 6%Z) []) = Throw network_error
  /\ Throw (A := unit) network_error <> Throw (Error "Too many login attempts").
Proof.
  split; [reflexivity |]. split; [reflexivity | discriminate].
Qed.




(** ** [loginMFA] without a secret *)

(** C6: when the TOTP secret is absent, [loginMFA] throws 'TOTP required
    for MFA login' at once: it has logged its entry and has issued no
    network call, neither the CSRF fetch nor the MFA POST. *)
Theorem loginMFA_requires_totp W totpSecret t :
  truthy totpSecret = false ->
  loginMFA W totpSecret t =
    (Throw (Error "TOTP required for MFA login"),
     t ++ [Log Ldebug NoObj "Logging in with MFA"])
  /\ network_calls (snd (loginMFA W totpSecret t)) = network_calls t.
Proof.
  intros Hno. rewrite (loginMFA_without_secret W _ _ Hno). split.
  - reflexivity.
  - cbn [snd]. rewrite network_calls_app. cbn. apply app_nil_r.
Qed.

Lemma loginMFA_requires_totp_witness :
  loginMFA (scripted [] (fun _ => false)) None [] =
    (Throw (Error "TOTP required for MFA login"),
     [Log Ldebug NoObj "Logging in with MFA"]).
Proof.
  apply (loginMFA_requires_totp (scripted [] (fun _ => false)) None []).
  reflexivity.
Defined.

(** ** The branches of the [catch] block *)

Section Branches.

Variables (W : World) (email password : string).
Variables (captcha0 totp0 blob : option string) (attempt0 : option Z).
Variables (t : Trace) (csrfToken : string) (e : Err.t).

(* The arguments after their defaults, named as in the method's body. *)
Local Notation captcha := (default_arg "" captcha0).
Local Notation totp := (default_arg "" totp0).
Local Notation attempt := (default_arg 0%Z attempt0).



(** C5: when the credential POST fails with the two-factor-required error
    code, the rest of the run is one call of [loginMFA] with the totp
    argument: [login] ends as that call ends, so a failure of [loginMFA]
    reaches the caller, and after the POST [login] is not entered again
    and no further credential POST is sent. *)
Theorem login_two_factor_required errBody :
  credential_post_fails W email password captcha attempt t csrfToken e ->
  structured e = Some (errBody, two_factor_required) ->
  login W email password captcha0 totp0 blob attempt0 t =
    loginMFA W (Some totp)
      (posted email password captcha attempt csrfToken t)
  /\ exists evs,
       snd (login W email password captcha0 totp0 blob attempt0 t) =
         posted email password captcha attempt csrfToken t ++ evs
       /\ mfa_entries evs = 1
       /\ attempts_logged evs = []
       /\ credential_posts evs = 0.
Proof.
  intros Hfail Hs.
  assert (Heq : login W email password captcha0 totp0 blob attempt0 t =
                loginMFA W (Some totp)
                  (posted email password captcha attempt csrfToken t)).
  { rewrite (login_catch W _ _ _ _ _ _ _ _ _ Hfail), Hs.
    change (includes two_factor_required "session_invalidated") with false.
    change (String.eqb two_factor_required captcha_invalid) with false.
    rewrite String.eqb_refl. reflexivity. }
  split; [exact Heq |].
  destruct (loginMFA_events W (Some totp)
              (posted email password captcha attempt csrfToken t))
    as (evs & Hevs & Hone & Hposts & Hlog & _).
  exists evs. rewrite Heq. repeat split; assumption.
Qed.


(** C10: [totp] defaults to the empty string, which [loginMFA] takes for
    an absent secret.  So when [login] is called without a totp argument
    (or, as in its own retries, with the empty one) and the credential
    POST fails with the two-factor-required error code, the call ends in
    'TOTP required for MFA login'; and however the server answers, such a
    call never sends an MFA POST or generates a one-time code. *)
Theorem login_two_factor_without_totp errBody :
  truthy totp0 = false ->
  credential_post_fails W email password captcha attempt t csrfToken e ->
  structured e = Some (errBody, two_factor_required) ->
  login W email password captcha0 totp0 blob attempt0 t =
    (Throw (Error "TOTP required for MFA login"),
     posted email password captcha attempt csrfToken t
       ++ [Log Ldebug NoObj "Logging in with MFA"])
  /\ forall W' email' password' captcha' blob' attempt' t',
       exists evs,
         snd (login W' email' password' captcha' totp0 blob' attempt' t') =
           t' ++ evs
         /\ mfa_posts evs = 0 /\ totp_calls evs = 0.
Proof.
  intros Hno Hfail Hs.
  assert (Hno' : truthy (Some totp) = false)
    by (destruct totp0 as [[| ? ?] |];
        [reflexivity | discriminate | reflexivity]).
  split.
  - rewrite (login_catch W _ _ _ _ _ _ _ _ _ Hfail), Hs.
    change (includes two_factor_required "session_invalidated") with false.
    change (String.eqb two_factor_required captcha_invalid) with false.
    rewrite String.eqb_refl. cbv iota.
    apply loginMFA_without_secret, Hno'.
  - intros W' email' password' captcha' blob' attempt' t'.
    apply (login_run_without_totp _ _ _ _ _ _ _ _ _ Hno'
             (login_run_login W' email' password' captcha' totp0 blob'
                attempt' t')).
Qed.

End Branches.

(** *** The branches on a scripted server *)



Lemma login_two_factor_required_witness :
  login (scripted [two_factor_required] (fun _ => false))
    "user@example.com" "hunter2" None (Some "JBSWY3DPEHPK3PXP") None None [] =
  loginMFA (scripted [two_factor_required] (fun _ => false))
    (Some "JBSWY3DPEHPK3PXP")
    (posted "user@example.com" "hunter2" "" 0 "abc" []).
Proof.
  apply (login_two_factor_required
           (scripted [two_factor_required] (fun _ => false))
           "user@example.com" "hunter2" None (Some "JBSWY3DPEHPK3PXP") None
           None [] "abc" (http_error two_factor_required)
           {| Err.errorCode := Some two_factor_required |}).
  - split; [cbn [default_arg]; lia | split; reflexivity].
  - reflexivity.
Defined.


Lemma login_two_factor_without_totp_witness :
  login (scripted [two_factor_required] (fun _ => false))
    "user@example.com" "hunter2" None None None None [] =
  (Throw (Error "TOTP required for MFA login"),
   posted "user@example.com" "hunter2" "" 0 "abc" []
     ++ [Log Ldebug NoObj "Logging in with MFA"]).
Proof.
  apply (login_two_factor_without_totp
           (scripted [two_factor_required] (fun _ => false))
           "user@example.com" "hunter2" None None None None [] "abc"
           (http_error two_factor_required)
           {| Err.errorCode := Some two_factor_required |}).
  - reflexivity.
  - split; [cbn [default_arg]; lia | split; reflexivity].
  - reflexivity.
Defined.

(** ** Session reuse *)

(** C8: when the redirect response carries no session identifier,
    [refreshAndSid(false)] returns [false] without throwing and
    [refreshAndSid(true)] throws 'Sid returned null'; either way the run
    stops after the redirect request: the SID-setting request and the fetch
    of the store homepage are not issued. *)
Theorem refreshAndSid_without_sid W t csrfToken redirectResp :
  fst (getCsrf W (t ++ [Log Ldebug NoObj "Setting SID"])) = Return csrfToken ->
  request W (redirecting t) (redirect_request csrfToken) = Return redirectResp ->
  truthy (sid (body redirectResp)) = false ->
  refreshAndSid W false t =
    (Return false, redirecting t ++ [CallHttp (redirect_request csrfToken)])
  /\ refreshAndSid W true t =
       (Throw (Error "Sid returned null"),
        redirecting t ++ [CallHttp (redirect_request csrfToken)])
  /\ network_calls (redirecting t ++ [CallHttp (redirect_request csrfToken)]) =
     network_calls t
       ++ [Get CSRF_ENDPOINT None None None; redirect_request csrfToken].
Proof.
  intros Hcsrf Hredirect Hsid. apply getCsrf_run in Hcsrf.
  assert (Hrun : forall error,
             refreshAndSid W error t =
             ((if error then Throw (Error "Sid returned null")
               else Return false),
              redirecting t ++ [CallHttp (redirect_request csrfToken)])).
  { intros error. unfold refreshAndSid, L_debug at 1. rewrite bind_emit.
    rewrite (bind_Return _ _ _ _ _ Hcsrf).
    unfold L_trace at 1. rewrite bind_emit.
    unfold request_get at 1, bind at 1.
    unfold redirecting, redirect_request in *.
    rewrite app_assoc in Hredirect. rewrite Hredirect, Hsid.
    rewrite <- !app_assoc. destruct error; reflexivity. }
  split; [apply (Hrun false) |]. split; [apply (Hrun true) |].
  unfold redirecting, csrf_events.
  rewrite <- !app_assoc, network_calls_app. reflexivity.
Qed.

Lemma refreshAndSid_without_sid_witness :
  refreshAndSid (scripted [] (fun _ => false)) false [] =
    (Return false, redirecting [] ++ [CallHttp (redirect_request "abc")])
  /\ refreshAndSid (scripted [] (fun _ => false)) true [] =
       (Throw (Error "Sid returned null"),
        redirecting [] ++ [CallHttp (redirect_request "abc")]).
Proof.
  destruct (refreshAndSid_without_sid (scripted [] (fun _ => false)) []
              "abc" (ok_response None))
    as (Hfalse & Htrue & _); [reflexivity | reflexivity | reflexivity |].
  split; [exact Hfalse | exact Htrue].
Defined.

(** ** The whole flow *)

(** C9: [fullLogin] first calls [refreshAndSid(false)].  When that returns
    [true] nothing but the closing log line follows: the reputation fetch,
    [login] and [refreshAndSid(true)] are skipped.  When it returns
    [false] the rest of the run is the reputation fetch, then [login] with
    an empty captcha, the totp and the blob of the reputation data, then
    [refreshAndSid(true)], in this order, each step starting where the
    previous one ended. *)
Theorem fullLogin_sequence
    W config email0 password0 totp0 account others t refreshed t1 :
  Config.accounts config = account :: others
  \/ (email0 <> None /\ password0 <> None /\ totp0 <> None) ->
  refreshAndSid W false t = (Return refreshed, t1) ->
  let email := default_arg (Config.email account) email0 in
  let password := default_arg (Config.password account) password0 in
  let totp := match totp0 with
              | Some s => Some s
              | None => Config.totp account
              end in
  fullLogin W config email0 password0 totp0 t =
    (if refreshed then
       (Return tt, t1 ++ [Log Linfo NoObj "Successfully refreshed login"])
     else
       (reputation <- getReputation W ;;
        login W email password (Some "") totp
          (Some (blob (arkose_data reputation))) None ;;
        refreshAndSid W true ;;
        L_info NoObj "Successfully logged in fresh")
         (t1 ++ [Log Ldebug NoObj
                   "Could not refresh credentials. Logging in fresh."]))
  /\ (refreshed = false ->
      forall reputation t2 t3 sidSet t4,
        getReputation W
          (t1 ++ [Log Ldebug NoObj
                    "Could not refresh credentials. Logging in fresh."]) =
          (Return reputation, t2) ->
        login W email password (Some "") totp
          (Some (blob (arkose_data reputation))) None t2 = (Return tt, t3) ->
        refreshAndSid W true t3 = (Return sidSet, t4) ->
        fullLogin W config email0 password0 totp0 t =
          (Return tt, t4 ++ [Log Linfo NoObj "Successfully logged in fresh"])).
Proof.
  intros Hargs Hrefresh email password totp.
  assert (Heq :
    fullLogin W config email0 password0 totp0 t =
    (if refreshed then
       (Return tt, t1 ++ [Log Linfo NoObj "Successfully refreshed login"])
     else
       (reputation <- getReputation W ;;
        login W email password (Some "") totp
          (Some (blob (arkose_data reputation))) None ;;
        refreshAndSid W true ;;
        L_info NoObj "Successfully logged in fresh")
         (t1 ++ [Log Ldebug NoObj
                   "Could not refresh credentials. Logging in fresh."]))).
  { assert (Hbody :
      fullLogin W config email0 password0 totp0 t =
      (refreshed <- refreshAndSid W false ;;
       if refreshed then L_info NoObj "Successfully refreshed login"
       else
         L_debug NoObj "Could not refresh credentials. Logging in fresh." ;;
         reputation <- getReputation W ;;
         login W email password (Some "") totp
           (Some (blob (arkose_data reputation))) None ;;
         refreshAndSid W true ;;
         L_info NoObj "Successfully logged in fresh") t).
    { unfold fullLogin, account0. subst email password totp.
      destruct Hargs as [Hacc | (He & Hp & Ht)].
      - rewrite Hacc. destruct email0, password0, totp0; reflexivity.
      - destruct email0, password0, totp0; try contradiction; reflexivity. }
    rewrite Hbody, (bind_Return _ _ _ _ _ Hrefresh).
    destruct refreshed; reflexivity. }
  split; [exact Heq |].
  intros -> reputation t2 t3 sidSet t4 Hrep Hlogin Hsid.
  rewrite Heq, (bind_Return _ _ _ _ _ Hrep).
  rewrite (bind_Return _ _ _ _ _ Hlogin).
  rewrite (bind_Return _ _ _ _ _ Hsid). reflexivity.
Qed.

Lemma fullLogin_sequence_witness :
  fullLogin (scripted [] (fun _ => true)) one_account None None None [] =
    (Return tt,
     snd (refreshAndSid (scripted [] (fun _ => true)) false [])
       ++ [Log Linfo NoObj "Successfully refreshed login"])
  /\ network_calls
       (snd (fullLogin (scripted [] after_login) one_account
               None None None [])) =
     [ Get CSRF_ENDPOINT None None None;
       redirect_request "abc";
       Get REPUTATION_ENDPOINT None None None;
       Get CSRF_ENDPOINT None None None;
       Post LOGIN_ENDPOINT (login_json "user@example.com" "hunter2" "") "abc";
       Get CSRF_ENDPOINT None None None;
       redirect_request "abc";
       Get SET_SID_ENDPOINT None (Some (SidSearchParams "sid")) None;
       Get STORE_HOMEPAGE None None (Some "text") ].
Proof.
  split.
  - apply (fullLogin_sequence (scripted [] (fun _ => true)) one_account
             None None None
             {| Config.email := "user@example.com";
                Config.password := "hunter2";
                Config.totp := None |}
             [] [] true).
    + left. reflexivity.
    + reflexivity.
  - destruct (fullLogin_sequence (scripted [] after_login) one_account
                None None None
                {| Config.email := "user@example.com";
                   Config.password := "hunter2";
                   Config.totp := None |}
                [] [] false
                (snd (refreshAndSid (scripted [] after_login) false [])))
      as (Heq & _); [left; reflexivity | reflexivity |].
    rewrite Heq. reflexivity.
Defined.

(** ** End-to-end scenarios *)

(** The CSRF endpoint returns the cookie [XSRF-TOKEN=abc] and the login
    endpoint accepts the first POST: [login] resolves after the CSRF fetch
    and the one credential POST. *)
Example login_first_try :
  fst (login (scripted [] (fun _ => false)) "user@example.com" "hunter2"
         None None None None []) = Return tt
  /\ network_calls
       (snd (login (scripted [] (fun _ => false)) "user@example.com"
               "hunter2" None None None None [])) =
     [ Get CSRF_ENDPOINT None None None;
       Post LOGIN_ENDPOINT (login_json "user@example.com" "hunter2" "") "abc" ].
Proof. split; reflexivity. Qed.

(** The login endpoint answers captcha-invalid once, then accepts: two
    credential POSTs and one call of the CAPTCHA resolver. *)
Example login_captcha_once :
  fst (login (scripted [captcha_invalid] (fun _ => false))
         "user@example.com" "hunter2" None None None None []) = Return tt
  /\ credential_posts
       (snd (login (scripted [captcha_invalid] (fun _ => false))
               "user@example.com" "hunter2" None None None None [])) = 2
  /\ captcha_calls
       (snd (login (scripted [captcha_invalid] (fun _ => false))
               "user@example.com" "hunter2" None None None None [])) = 1.
Proof. repeat split; reflexivity. Qed.

(** A server that invalidates the session on every POST: six credential
    POSTs, at attempts 0 to 5, then the attempt-limit error at attempt 6. *)
Example login_session_invalidated_forever :
  fst (login (scripted (repeat session_invalidated 10) (fun _ => false))
         "user@example.com" "hunter2" None None None None []) =
    Throw (Error "Too many login attempts")
  /\ credential_posts
       (snd (login (scripted (repeat session_invalidated 10) (fun _ => false))
               "user@example.com" "hunter2" None None None None [])) = 6
  /\ attempts_logged
       (snd (login (scripted (repeat session_invalidated 10) (fun _ => false))
               "user@example.com" "hunter2" None None None None [])) =
     [0; 1; 2; 3; 4; 5; 6]%Z
  /\ posting_attempts 0
       (snd (login (scripted (repeat session_invalidated 10) (fun _ => false))
               "user@example.com" "hunter2" None None None None [])) =
     [0; 1; 2; 3; 4; 5]%Z.
Proof. repeat split; reflexivity. Qed.

(** ** The runs of [loginMFA] and [refreshAndSid] *)

Lemma loginMFA_run_loginMFA W totpSecret t :
  loginMFA_run W totpSecret t (loginMFA W totpSecret t).
Proof.
  destruct (truthy totpSecret) eqn:Hs.
  2: { rewrite (loginMFA_without_secret W _ _ Hs).
       apply mfa_no_secret, Hs. }
  unfold loginMFA, L_debug. rewrite bind_emit, Hs. cbn [negb].
  fold (mfa_entered t).
  destruct (fst (getCsrf W (mfa_entered t))) as [csrfToken | e] eqn:Hcsrf.
  2: { rewrite (bind_Throw _ _ _ _ _ (getCsrf_run W _ _ Hcsrf)).
       apply mfa_csrf_throws; assumption. }
  rewrite (bind_Return _ _ _ _ _ (getCsrf_run W _ _ Hcsrf)).
  unfold call_TOTP_generate, bind at 1.
  destruct (TOTP_generate W _ _) as [code | e] eqn:Htotp.
  2: { rewrite <- app_assoc. apply (mfa_totp_throws _ _ _ csrfToken);
         assumption. }
  unfold L_trace. rewrite bind_emit. unfold request_post, bind.
  fold (mfa_json code).
  assert (Hshape :
    ((mfa_entered t ++ csrf_events) ++ [CallTotp (default_arg "" totpSecret)])
      ++ [Log Ltrace (ObjBodyUrl (mfa_json code) MFA_LOGIN_ENDPOINT)
            "MFA request"]
    = mfa_requesting (default_arg "" totpSecret) code t).
  { unfold mfa_requesting. rewrite <- !app_assoc. reflexivity. }
  rewrite Hshape.
  destruct (request W _ _) as [resp | e] eqn:Hpost.
  - apply (mfa_post_returns _ _ _ csrfToken code resp); assumption.
  - apply (mfa_post_throws _ _ _ csrfToken code e); assumption.
Qed.

Lemma refreshAndSid_run_refreshAndSid W error t :
  refreshAndSid_run W error t (refreshAndSid W error t).
Proof.
  unfold refreshAndSid, L_debug at 1. rewrite bind_emit.
  destruct (fst (getCsrf W (t ++ [Log Ldebug NoObj "Setting SID"])))
    as [csrfToken | e] eqn:Hcsrf.
  2: { rewrite (bind_Throw _ _ _ _ _ (getCsrf_run W _ _ Hcsrf)).
       apply sid_csrf_throws, Hcsrf. }
  rewrite (bind_Return _ _ _ _ _ (getCsrf_run W _ _ Hcsrf)).
  unfold L_trace at 1. rewrite bind_emit.
  unfold request_get at 1, bind at 1.
  fold (redirect_request csrfToken).
  assert (Hshape :
    ((t ++ [Log Ldebug NoObj "Setting SID"]) ++ csrf_events)
      ++ [Log Ltrace
            (ObjParamsUrl (RedirectSearchParams EPIC_CLIENT_ID STORE_HOMEPAGE)
               REDIRECT_ENDPOINT)
            "Redirect request"]
    = redirecting t).
  { unfold redirecting. rewrite <- !app_assoc. reflexivity. }
  rewrite Hshape. fold (redirected csrfToken t).
  destruct (request W (redirecting t) (redirect_request csrfToken))
    as [redirectResp | e] eqn:Hredirect.
  2: { apply (sid_redirect_throws _ _ _ csrfToken); assumption. }
  destruct (truthy (sid (body redirectResp))) eqn:Hsid; cbn [negb].
  2: { replace (if error then throw (Error "Sid returned null") else ret false)
         with (fun t' : Trace =>
                 ((if error then Throw (Error "Sid returned null")
                   else @Return bool false), t'))
         by (destruct error; reflexivity).
       apply (sid_missing _ _ _ csrfToken redirectResp); assumption. }
  destruct (sid (body redirectResp)) as [s |] eqn:Hs; [| discriminate].
  cbn [default_arg]. unfold L_trace at 1. rewrite bind_emit.
  fold (sid_requesting csrfToken s t).
  unfold request_get at 1, bind at 1. fold (sid_request s).
  destruct (request W (sid_requesting csrfToken s t) (sid_request s))
    as [sidResp | e] eqn:Hset.
  2: { apply (sid_set_throws _ _ _ csrfToken redirectResp s); assumption. }
  unfold L_trace at 1. rewrite bind_emit.
  unfold getStoreToken, L_trace at 1. unfold bind at 1. rewrite bind_emit.
  unfold request_get, bind at 1. fold store_request.
  assert (Hshape' :
    ((sid_requesting csrfToken s t ++ [CallHttp (sid_request s)])
       ++ [Log Ltrace (ObjHeaders (set_cookie sidResp))
             "Set SID response headers"])
      ++ [Log Ltrace (ObjUrl STORE_HOMEPAGE) "Request store homepage"]
    = store_requesting csrfToken s sidResp t).
  { unfold store_requesting. rewrite <- !app_assoc. reflexivity. }
  rewrite Hshape'.
  destruct (request W (store_requesting csrfToken s sidResp t) store_request)
    as [storeResp | e] eqn:Hstore.
  - unfold L_trace, emit, ret. cbn. rewrite <- app_assoc.
    apply (sid_done _ _ _ csrfToken redirectResp s sidResp storeResp);
      assumption.
  - cbn. apply (sid_store_throws _ _ _ csrfToken redirectResp s sidResp);
      assumption.
Qed.

(** ** Fresh CSRF tokens *)

Lemma tokens_fresh_app W evs : forall h token evs',
  tokens_fresh W h token (evs ++ evs') =
  tokens_fresh W h token evs
  && tokens_fresh W (h ++ evs) (token_after W h token evs) evs'.
Proof.
  induction evs as [| ev evs IH]; intros h token evs'.
  - rewrite app_nil_r. reflexivity.
  - replace (h ++ ev :: evs) with ((h ++ [ev]) ++ evs)
      by (rewrite <- app_assoc; reflexivity).
    destruct ev as [level obj msg | [[] xsrf params rt | url json xsrf] | |];
      cbn [tokens_fresh token_after app]; rewrite ?IH, ?andb_assoc;
      reflexivity.
Qed.

(** The token [getCsrf] returns is the cookie of the reply to its
    request. *)
Lemma getCsrf_cookie W t csrfToken :
  fst (getCsrf W t) = Return csrfToken ->
  csrf_cookie
    (request W
       ((t ++ [Log Ldebug NoObj "Refreshing CSRF"])
          ++ [Log Ltrace (ObjUrl CSRF_ENDPOINT) "CSRF request"])
       (Get CSRF_ENDPOINT None None None)) = Some csrfToken.
Proof.
  unfold getCsrf, L_debug, L_trace, request_get. rewrite !bind_emit.
  unfold bind, csrf_cookie.
  destruct (request W _ _) as [resp | e]; [| discriminate].
  destruct (cookieParser _ _) as [c |]; cbn; [| discriminate].
  intros H. injection H as ->. reflexivity.
Qed.

(** A CSRF fetch followed by a POST with the token it returned. *)
Lemma fetch_then_post_fresh W h token csrfToken between url json :
  fst (getCsrf W h) = Return csrfToken ->
  Forall (fun ev => match ev with CallHttp _ => False | _ => True end)
    between ->
  tokens_fresh W h token
    (csrf_events ++ between ++ [CallHttp (Post url json csrfToken)]) = true
  /\ token_after W h token
       (csrf_events ++ between ++ [CallHttp (Post url json csrfToken)]) = None.
Proof.
  intros Hcsrf Hquiet. apply getCsrf_cookie in Hcsrf.
  unfold csrf_events. cbn [tokens_fresh token_after app]. rewrite Hcsrf.
  generalize (((h ++ [Log Ldebug NoObj "Refreshing CSRF"])
                 ++ [Log Ltrace (ObjUrl CSRF_ENDPOINT) "CSRF request"])
                ++ [CallHttp (Get CSRF_ENDPOINT None None None)]).
  induction Hquiet as [| ev between Hev _ IH]; intros h'.
  - cbn [tokens_fresh token_after app]. rewrite String.eqb_refl.
    split; reflexivity.
  - destruct ev as [level obj msg | r | |]; [| contradiction | |];
      cbn [tokens_fresh token_after app]; apply IH.
Qed.

(** Events without requests keep the token and are fresh. *)
Lemma quiet_fresh W evs : forall h token,
  network_calls evs = [] ->
  tokens_fresh W h token evs = true /\ token_after W h token evs = token.
Proof.
  induction evs as [| ev evs IH]; intros h token Hq; [split; reflexivity |].
  destruct ev as [level obj msg | r | |]; [| discriminate | |];
    cbn [tokens_fresh token_after]; apply IH; exact Hq.
Qed.

(** ** [loginMFA]: one code, one POST *)

Lemma mfa_requesting_events secret code t :
  mfa_requesting secret code t =
  t ++ Log Ldebug NoObj "Logging in with MFA"
       :: csrf_events
       ++ [CallTotp secret;
           Log Ltrace (ObjBodyUrl (mfa_json code) MFA_LOGIN_ENDPOINT)
             "MFA request"].
Proof.
  unfold mfa_requesting, mfa_entered. rewrite <- !app_assoc. reflexivity.
Qed.

(** The requests of a run of [loginMFA]: nothing, the CSRF fetch, or the
    CSRF fetch and then the MFA POST with the generated code; the POST
    carries the token just fetched. *)
Lemma loginMFA_run_requests W totpSecret t r :
  loginMFA_run W totpSecret t r ->
  exists evs,
    snd r = t ++ evs
    /\ (network_calls evs = []
        \/ network_calls evs = [Get CSRF_ENDPOINT None None None]
        \/ exists code csrfToken,
             network_calls evs =
             [Get CSRF_ENDPOINT None None None;
              Post MFA_LOGIN_ENDPOINT (mfa_json code) csrfToken])
    /\ totp_calls evs <= 1
    /\ captcha_calls evs = 0
    /\ (fst r = Return tt -> mfa_posts evs = 1 /\ totp_calls evs = 1)
    /\ forall token, tokens_fresh W t token evs = true.
Proof.
  intros [Hno | e Hs Hcsrf | csrfToken e Hs Hcsrf Htotp
          | csrfToken code e Hs Hcsrf Htotp Hpost
          | csrfToken code resp Hs Hcsrf Htotp Hpost];
    cbn [fst snd]; rewrite ?mfa_requesting_events; unfold mfa_entered;
    rewrite <- ?app_assoc; cbn [app]; eexists; (split; [reflexivity |]).
  - repeat split; try discriminate; auto.
  - repeat split; try discriminate; auto.
  - repeat split; try discriminate; auto.
  - repeat split; try discriminate; auto.
    + right. right. exists code, csrfToken. reflexivity.
    + intros token. cbn [tokens_fresh].
      apply (fetch_then_post_fresh W _ token csrfToken
               [CallTotp (default_arg "" totpSecret);
                Log Ltrace (ObjBodyUrl (mfa_json code) MFA_LOGIN_ENDPOINT)
                  "MFA request"] _ _ Hcsrf).
      repeat constructor.
  - repeat split; try discriminate; auto.
    + right. right. exists code, csrfToken. reflexivity.
    + intros token. cbn [tokens_fresh].
      apply (fetch_then_post_fresh W _ token csrfToken
               [CallTotp (default_arg "" totpSecret);
                Log Ltrace (ObjBodyUrl (mfa_json code) MFA_LOGIN_ENDPOINT)
                  "MFA request"] _ _ Hcsrf).
      repeat constructor.
Qed.

(** ** More on whole retry chains *)

Ltac login_run_cases H :=
  induction H as
    [ captcha attempt t e Hcsrf
    | captcha attempt t csrfToken Hcsrf Hgt
    | captcha attempt t csrfToken resp Hle Hcsrf Hpost
    | captcha attempt t csrfToken e errBody errorCode r Hfail Hs Hinc Hrun IH
    | captcha attempt t csrfToken e errBody errorCode captchaToken r
        Hfail Hs Hinc Hcap Hsolve Hrun IH
    | captcha attempt t csrfToken e errBody errorCode e' Hfail Hs Hinc Hcap
        Hsolve
    | captcha attempt t csrfToken e errBody errorCode Hfail Hs Hinc Hcap Hmfa
    | captcha attempt t csrfToken e errBody errorCode Hfail Hs Hinc Hcap Hmfa
    | captcha attempt t csrfToken e Hfail Hs ].

(** One entry into [login] per counter value, one credential POST per
    entry except possibly the last, at most one CAPTCHA call per POST and
    at most one entry into [loginMFA]; a run that returns has posted. *)
Lemma login_run_counts W email password totp blob captcha attempt t r :
  login_run W email password totp blob captcha attempt t r ->
  exists evs n,
    snd r = t ++ evs
    /\ attempts_logged evs = count_up attempt (S n)
    /\ n <= credential_posts evs <= S n
    /\ captcha_calls evs <= credential_posts evs
    /\ mfa_entries evs <= 1
    /\ (fst r = Return tt -> (attempt <= 5)%Z /\ 1 <= credential_posts evs).
Proof.
  intros H. login_run_cases H.
  1-3, 6, 8-9:
    try (destruct Hfail as (Hle & _)); cbn [fst snd]; flatten_trace;
    eexists; exists 0; (split; [reflexivity |]); cbn;
    repeat split; try discriminate; try lia; auto.
  - destruct Hfail as (Hle & _).
    destruct IH as (evs & n & Hevs & Hlog & Hposts & Hcaptcha & Hone & Hret).
    revert Hevs. flatten_trace. intros Hevs.
    eexists; exists (S n). split; [exact Hevs |].
    rewrite !credential_posts_app, !attempts_logged_app, !captcha_calls_app,
      !mfa_entries_app, Hlog.
    cbn. repeat split; lia.
  - destruct Hfail as (Hle & _).
    destruct IH as (evs & n & Hevs & Hlog & Hposts & Hcaptcha & Hone & Hret).
    revert Hevs. flatten_trace. intros Hevs.
    eexists; exists (S n). split; [exact Hevs |].
    rewrite !credential_posts_app, !attempts_logged_app, !captcha_calls_app,
      !mfa_entries_app, Hlog.
    cbn. repeat split; lia.
  - destruct Hfail as (Hle & _).
    destruct (loginMFA_events W (Some totp)
                (posted email password captcha attempt csrfToken t))
      as (evs & Hevs & Hone & Hposts & Hlog & Hcaptcha & _).
    revert Hevs. flatten_trace. intros Hevs.
    eexists; exists 0. split; [exact Hevs |].
    rewrite !credential_posts_app, !attempts_logged_app, !captcha_calls_app,
      !mfa_entries_app, Hlog, Hposts, Hcaptcha, Hone.
    cbn. repeat split; try lia.
Qed.

Lemma no_captcha_calls blob evs :
  captcha_calls evs = 0 -> Forall (captcha_for blob) evs.
Proof.
  induction evs as [| ev evs IH]; [constructor |].
  destruct ev; unfold captcha_calls; cbn; intros H; try discriminate;
    constructor; try exact I; apply IH; exact H.
Qed.

(** A run of [login] talks to the CSRF, login and MFA endpoints only,
    posts the credentials it was given, and asks the CAPTCHA channel for
    the login site key with the blob it was given. *)
Lemma login_run_traffic W email password totp blob captcha attempt t r :
  login_run W email password totp blob captcha attempt t r ->
  exists evs,
    snd r = t ++ evs
    /\ Forall (login_traffic email password) (network_calls evs)
    /\ Forall (captcha_for blob) evs.
Proof.
  assert (Hget : login_traffic email password
                   (Get CSRF_ENDPOINT None None None))
    by (left; reflexivity).
  assert (Hcred : forall c tok,
             login_traffic email password
               (Post LOGIN_ENDPOINT (login_json email password c) tok))
    by (intros c tok; right; left; exists c, tok; reflexivity).
  assert (Hsecond : forall code tok,
             login_traffic email password
               (Post MFA_LOGIN_ENDPOINT (mfa_json code) tok))
    by (intros code tok; right; right; exists code, tok; reflexivity).
  intros H. login_run_cases H.
  1-3, 6, 8-9:
    cbn [snd]; flatten_trace; eexists; (split; [reflexivity |]); cbn;
    split; repeat (constructor; auto).
  - destruct IH as (evs & Hevs & Hreqs & Hcaptcha).
    revert Hevs. flatten_trace. intros Hevs.
    eexists. split; [exact Hevs |].
    rewrite !network_calls_app. cbn. split.
    + repeat (constructor; auto).
    + repeat (constructor; [exact I |]). exact Hcaptcha.
  - destruct IH as (evs & Hevs & Hreqs & Hcaptcha).
    revert Hevs. flatten_trace. intros Hevs.
    eexists. split; [exact Hevs |].
    rewrite !network_calls_app. cbn. split.
    + repeat (constructor; auto).
    + repeat (constructor; [cbn; auto |]). exact Hcaptcha.
  - destruct (loginMFA_run_requests _ _ _ _
                (loginMFA_run_loginMFA W (Some totp)
                   (posted email password captcha attempt csrfToken t)))
      as (evs & Hevs & Hreqs & _ & Hcaptcha & _).
    revert Hevs. flatten_trace. intros Hevs.
    eexists. split; [exact Hevs |].
    rewrite !network_calls_app. cbn. split.
    + repeat (constructor; auto).
      destruct Hreqs as [-> | [-> | (code & tok & ->)]];
        repeat (constructor; auto).
    + repeat (constructor; [exact I |]).
      apply no_captcha_calls, Hcaptcha.
Qed.

Lemma posted_block email password captcha attempt csrfToken t :
  posted email password captcha attempt csrfToken t =
  t ++ post_block email password captcha attempt csrfToken.
Proof.
  unfold posted, requesting, entered, post_block.
  rewrite <- !app_assoc. reflexivity.
Qed.

Lemma post_block_fresh W email password captcha attempt csrfToken t token :
  fst (getCsrf W (entered email captcha attempt t)) = Return csrfToken ->
  tokens_fresh W t token
    (post_block email password captcha attempt csrfToken) = true
  /\ token_after W t token
       (post_block email password captcha attempt csrfToken) = None.
Proof.
  intros Hcsrf. unfold post_block. cbn [tokens_fresh token_after].
  apply (fetch_then_post_fresh W _ token csrfToken _ _ _ Hcsrf).
  repeat constructor.
Qed.

(** Every POST of a run of [login], the credential POSTs of all attempts
    and the MFA POST, carries a token fetched after the previous POST. *)
Lemma login_run_tokens W email password totp blob captcha attempt t r :
  login_run W email password totp blob captcha attempt t r ->
  exists evs,
    snd r = t ++ evs /\ forall token, tokens_fresh W t token evs = true.
Proof.
  assert (Hstep : forall captcha attempt csrfToken t tail
                          (r : Outcome unit * Trace),
    fst (getCsrf W (entered email captcha attempt t)) = Return csrfToken ->
    snd r = posted email password captcha attempt csrfToken t ++ tail ->
    (forall token,
        tokens_fresh W (posted email password captcha attempt csrfToken t)
          token tail = true) ->
    exists evs,
      snd r = t ++ evs /\ forall token, tokens_fresh W t token evs = true).
  { intros c a tok h tail r' Hcsrf Hr Htail.
    exists (post_block email password c a tok ++ tail).
    rewrite Hr, posted_block, <- app_assoc. split; [reflexivity |].
    intros token. rewrite tokens_fresh_app.
    destruct (post_block_fresh W email password c a tok h token Hcsrf)
      as (-> & ->).
    rewrite <- posted_block. apply Htail. }
  intros H. login_run_cases H.
  - cbn [snd]. flatten_trace. eexists. split; reflexivity.
  - cbn [snd]. flatten_trace. eexists. split; reflexivity.
  - apply (Hstep _ _ _ _ [Log Ldebug NoObj "Logged in"] _ Hcsrf);
      [reflexivity | reflexivity].
  - destruct Hfail as (_ & Hcsrf & _).
    destruct IH as (evs & Hevs & Hfresh).
    apply (Hstep _ _ _ _
             (Log Ldebug NoObj "Session invalidated, retrying" :: evs)
             _ Hcsrf).
    + rewrite Hevs, <- app_assoc. reflexivity.
    + intros token. cbn [tokens_fresh]. apply Hfresh.
  - destruct Hfail as (_ & Hcsrf & _).
    destruct IH as (evs & Hevs & Hfresh).
    apply (Hstep _ _ _ _
             (Log Ldebug NoObj "Captcha required"
                :: CallCaptcha EpicArkosePublicKey.LOGIN blob :: evs)
             _ Hcsrf).
    + rewrite Hevs, <- app_assoc. reflexivity.
    + intros token. cbn [tokens_fresh].
      replace ((posted email password captcha attempt csrfToken t
                  ++ [Log Ldebug NoObj "Captcha required"])
                 ++ [CallCaptcha EpicArkosePublicKey.LOGIN blob])
        with (posted email password captcha attempt csrfToken t
                ++ [Log Ldebug NoObj "Captcha required";
                    CallCaptcha EpicArkosePublicKey.LOGIN blob])
        by (rewrite <- app_assoc; reflexivity).
      apply Hfresh.
  - destruct Hfail as (_ & Hcsrf & _).
    apply (Hstep _ _ _ _
             [Log Ldebug NoObj "Captcha required";
              CallCaptcha EpicArkosePublicKey.LOGIN blob] _ Hcsrf);
      [reflexivity | reflexivity].
  - destruct Hfail as (_ & Hcsrf & _).
    destruct (loginMFA_run_requests _ _ _ _
                (loginMFA_run_loginMFA W (Some totp)
                   (posted email password captcha attempt csrfToken t)))
      as (evs & Hevs & _ & _ & _ & _ & Hfresh).
    apply (Hstep _ _ _ _ evs _ Hcsrf); [exact Hevs | exact Hfresh].
  - destruct Hfail as (_ & Hcsrf & _).
    apply (Hstep _ _ _ _ [Log Lerror (ObjErrBody errBody) "Login failed"]
             _ Hcsrf); [reflexivity | reflexivity].
  - destruct Hfail as (_ & Hcsrf & _).
    apply (Hstep _ _ _ _ [Log Lerror (ObjErr e) "Login failed"] _ Hcsrf);
      [reflexivity | reflexivity].
Qed.

(** ** [refreshAndSid] in full *)

Ltac flatten_sid :=
  unfold store_requesting, sid_requesting, redirected, redirecting,
    csrf_events;
  rewrite <- ?app_assoc; cbn [app].

(** What a run of [refreshAndSid] adds to the history: GET requests only,
    nothing of [login]; the whole sequence of four requests when it
    returns [true], the first two when it returns [false], which it does
    only for [error = false]. *)
Lemma refreshAndSid_run_facts W error t r :
  refreshAndSid_run W error t r ->
  exists evs,
    snd r = t ++ evs
    /\ credential_posts evs = 0
    /\ captcha_calls evs = 0
    /\ attempts_logged evs = []
    /\ Forall (fun q => match q with Post _ _ _ => False | _ => True end)
         (network_calls evs)
    /\ (fst r = Return true ->
        exists csrfToken redirectResp s,
          request W (redirecting t) (redirect_request csrfToken) =
            Return redirectResp
          /\ sid (body redirectResp) = Some s
          /\ s <> ""
          /\ network_calls evs =
             [Get CSRF_ENDPOINT None None None; redirect_request csrfToken;
              sid_request s; store_request])
    /\ (fst r = Return false ->
        error = false
        /\ exists csrfToken,
             network_calls evs =
             [Get CSRF_ENDPOINT None None None; redirect_request csrfToken]).
Proof.
  intros [e Hcsrf | csrfToken e Hcsrf Hredirect
          | csrfToken redirectResp Hcsrf Hredirect Hsid
          | csrfToken redirectResp s e Hcsrf Hredirect Hs Hsid Hset
          | csrfToken redirectResp s sidResp e Hcsrf Hredirect Hs Hsid Hset
              Hstore
          | csrfToken redirectResp s sidResp storeResp Hcsrf Hredirect Hs
              Hsid Hset Hstore];
    cbn [fst snd]; flatten_sid; eexists; (split; [reflexivity |]);
    (split; [reflexivity |]); (split; [reflexivity |]);
    (split; [reflexivity |]); (split; [repeat constructor |]).
  1, 2, 4, 5: split; discriminate.
  - destruct error; split; try discriminate.
    intros _. split; [reflexivity |]. exists csrfToken. reflexivity.
  - split; [| discriminate]. intros _.
    exists csrfToken, redirectResp, s.
    unfold redirecting, csrf_events in Hredirect.
    rewrite <- ?app_assoc in Hredirect. cbn [app] in Hredirect.
    split; [exact Hredirect |]. split; [exact Hs |].
    split; [| reflexivity]. intros ->. discriminate.
Qed.

(** ** [fullLogin] step by step *)

Lemma bind_cases {A B} (m : M A) (k : A -> M B) t :
  (exists a t', m t = (Return a, t') /\ bind m k t = k a t')
  \/ (exists e t', m t = (Throw e, t') /\ bind m k t = (Throw e, t')).
Proof.
  unfold bind. destruct (m t) as [[a | e] t'].
  - left. exists a, t'. split; reflexivity.
  - right. exists e, t'. split; reflexivity.
Qed.

(** The arguments of [fullLogin] after their defaults, when there is an
    account to take them from or none is needed. *)
Lemma fullLogin_body W config email0 password0 totp0 account others t :
  Config.accounts config = account :: others
  \/ (email0 <> None /\ password0 <> None /\ totp0 <> None) ->
  fullLogin W config email0 password0 totp0 t =
  (refreshed <- refreshAndSid W false ;;
   if refreshed then L_info NoObj "Successfully refreshed login"
   else
     L_debug NoObj "Could not refresh credentials. Logging in fresh." ;;
     reputation <- getReputation W ;;
     login W (default_arg (Config.email account) email0)
       (default_arg (Config.password account) password0) (Some "")
       match totp0 with
       | Some s => Some s
       | None => Config.totp account
       end
       (Some (blob (arkose_data reputation))) None ;;
     refreshAndSid W true ;;
     L_info NoObj "Successfully logged in fresh") t.
Proof.
  unfold fullLogin, account0.
  intros [Hacc | (He & Hp & Ht)].
  - rewrite Hacc. destruct email0, password0, totp0; reflexivity.
  - destruct email0, password0, totp0; try contradiction; reflexivity.
Qed.

(** Without an account, a default that is needed cannot be read. *)
Lemma fullLogin_defaults_fail W config email0 password0 totp0 t :
  Config.accounts config = [] ->
  email0 = None \/ password0 = None \/ totp0 = None ->
  fullLogin W config email0 password0 totp0 t =
  (Throw (TypeError "Cannot read property of undefined"), t).
Proof.
  intros Hacc Hnone. unfold fullLogin, account0. rewrite Hacc.
  destruct email0, password0, totp0;
    try reflexivity; destruct Hnone as [H | [H | H]]; discriminate.
Qed.

Lemma getReputation_run W t :
  getReputation W t =
  (match request W (t ++ [Log Ltrace (ObjUrl REPUTATION_ENDPOINT)
                            "Reputation request"])
           (Get REPUTATION_ENDPOINT None None None) with
   | Return resp => Return (body resp)
   | Throw e => Throw e
   end,
   t ++ [Log Ltrace (ObjUrl REPUTATION_ENDPOINT) "Reputation request";
         CallHttp (Get REPUTATION_ENDPOINT None None None)]).
Proof.
  unfold getReputation, L_trace, request_get. rewrite bind_emit.
  unfold bind. destruct (request W _ _); cbn; rewrite <- app_assoc;
    reflexivity.
Qed.

(** The bounds of a [login] call in one place. *)
Lemma login_facts W email password captcha totp blob attempt t :
  exists evs,
    snd (login W email password captcha totp blob attempt t) = t ++ evs
    /\ credential_posts evs <= attempts_left attempt
    /\ captcha_calls evs <= attempts_left attempt
    /\ Forall (fun k => (k <= Z.max (default_arg 0%Z attempt) 6)%Z)
         (attempts_logged evs).
Proof.
  pose proof (login_run_login W email password captcha totp blob attempt t)
    as Hrun.
  destruct (login_run_bounded _ _ _ _ _ _ _ _ _ Hrun)
    as (evs & Hevs & Hposts & _ & Hall & _).
  destruct (login_run_counts _ _ _ _ _ _ _ _ _ Hrun)
    as (evs' & n & Hevs' & _ & _ & Hcaptcha & _).
  assert (evs' = evs) as -> by (apply (app_inv_head t); congruence).
  exists evs. unfold attempts_left in *. cbn [default_arg] in *.
  repeat split; try assumption. lia.
Qed.

(** What any run of [fullLogin] adds to the history. *)
Lemma fullLogin_facts W config email0 password0 totp0 t :
  exists evs,
    snd (fullLogin W config email0 password0 totp0 t) = t ++ evs
    /\ credential_posts evs <= 6
    /\ captcha_calls evs <= 6
    /\ Forall (fun k => (k <= 6)%Z) (attempts_logged evs)
    /\ (fst (fullLogin W config email0 password0 totp0 t) = Return tt ->
        exists before s,
          network_calls evs = before ++ [sid_request s; store_request]).
Proof.
  assert (Hcases :
    (Config.accounts config = []
     /\ (email0 = None \/ password0 = None \/ totp0 = None))
    \/ exists account others,
         Config.accounts config = account :: others
         \/ (email0 <> None /\ password0 <> None /\ totp0 <> None)).
  { destruct (Config.accounts config) as [| account others] eqn:Hacc.
    - destruct email0 as [e |]; [| left; auto].
      destruct password0 as [p |]; [| left; auto].
      destruct totp0 as [s |]; [| left; auto].
      right.
      exists {| Config.email := e; Config.password := p;
                Config.totp := Some s |}, [].
      right. repeat split; discriminate.
    - right. exists account, others. left. reflexivity. }
  destruct Hcases as [(Hacc & Hnone) | (account & others & Hok)].
  { rewrite (fullLogin_defaults_fail W _ _ _ _ t Hacc Hnone).
    exists []. cbn. rewrite app_nil_r.
    repeat split; try lia; try constructor. discriminate. }
  rewrite (fullLogin_body W _ _ _ _ account others t Hok).
  (* the speculative refresh *)
  destruct (refreshAndSid_run_facts _ _ _ _
              (refreshAndSid_run_refreshAndSid W false t))
    as (evs1 & Hevs1 & Hposts1 & Hcaptcha1 & Hlog1 & _ & Htrue1 & _).
  destruct (bind_cases (refreshAndSid W false)
              (fun refreshed : bool =>
                 if refreshed
                 then L_info NoObj "Successfully refreshed login"
                 else
                   L_debug NoObj
                     "Could not refresh credentials. Logging in fresh." ;;
                   reputation <- getReputation W ;;
                   login W (default_arg (Config.email account) email0)
                     (default_arg (Config.password account) password0)
                     (Some "")
                     match totp0 with
                     | Some s => Some s
                     | None => Config.totp account
                     end
                     (Some (blob (arkose_data reputation))) None ;;
                   refreshAndSid W true ;;
                   L_info NoObj "Successfully logged in fresh") t)
    as [(refreshed & t1 & Hr1 & ->) | (e & t1 & Hr1 & ->)];
    rewrite Hr1 in Hevs1, Htrue1; cbn [fst snd] in Hevs1, Htrue1; subst t1.
  2: { exists evs1. cbn [fst snd]. rewrite Hposts1, Hcaptcha1, Hlog1.
       repeat split; try lia; try constructor. discriminate. }
  destruct refreshed.
  { destruct (Htrue1 eq_refl) as (tok & resp & s & _ & _ & _ & Hreqs).
    exists (evs1 ++ [Log Linfo NoObj "Successfully refreshed login"]).
    unfold L_info, emit. cbn [fst snd]. rewrite <- app_assoc.
    rewrite credential_posts_app, captcha_calls_app, attempts_logged_app,
      network_calls_app, Hposts1, Hcaptcha1, Hlog1, Hreqs.
    cbn. repeat split; try lia; try constructor.
    intros _. exists [Get CSRF_ENDPOINT None None None; redirect_request tok], s.
    reflexivity. }
  (* the reputation fetch *)
  unfold L_debug. rewrite !bind_emit.
  match goal with
  | |- context [bind (getReputation W) ?k ?t'] =>
      destruct (bind_cases (getReputation W) k t')
        as [(reputation & t2 & Hr2 & ->) | (e & t2 & Hr2 & ->)]
  end;
    rewrite getReputation_run in Hr2; injection Hr2 as _ <-.
  2: { eexists. cbn [fst snd]. rewrite <- !app_assoc.
       split; [reflexivity |].
       rewrite !credential_posts_app, !captcha_calls_app,
         !attempts_logged_app, Hposts1, Hcaptcha1, Hlog1.
       cbn. repeat split; try lia; try constructor. discriminate. }
  (* the login *)
  match goal with
  | |- context [bind (login W ?e ?p ?c ?s ?b ?a) ?k ?t'] =>
      destruct (login_facts W e p c s b a t')
        as (evs3 & Hevs3 & Hposts3 & Hcaptcha3 & Hlog3);
      destruct (bind_cases (login W e p c s b a) k t')
        as [(u & t3 & Hr3 & ->) | (e' & t3 & Hr3 & ->)]
  end;
    rewrite Hr3 in Hevs3; cbn [snd] in Hevs3; subst t3;
    unfold attempts_left in Hposts3, Hcaptcha3;
    cbn [default_arg] in Hposts3, Hcaptcha3, Hlog3.
  2: { eexists. cbn [fst snd]. rewrite <- !app_assoc.
       split; [reflexivity |].
       rewrite !credential_posts_app, !captcha_calls_app,
         !attempts_logged_app, Hposts1, Hcaptcha1, Hlog1.
       cbn. repeat split; try lia; try exact Hlog3. discriminate. }
  (* the demanded refresh *)
  match goal with
  | |- context [bind (refreshAndSid W true) ?k ?t'] =>
      destruct (refreshAndSid_run_facts _ _ _ _
                  (refreshAndSid_run_refreshAndSid W true t'))
        as (evs4 & Hevs4 & Hposts4 & Hcaptcha4 & Hlog4 & _ & Htrue4 & Hfalse4);
      destruct (bind_cases (refreshAndSid W true) k t')
        as [(sidSet & t4 & Hr4 & ->) | (e' & t4 & Hr4 & ->)]
  end;
    rewrite Hr4 in Hevs4, Htrue4, Hfalse4;
    cbn [fst snd] in Hevs4, Htrue4, Hfalse4; subst t4.
  2: { eexists. cbn [fst snd]. rewrite <- !app_assoc.
       split; [reflexivity |].
       rewrite !credential_posts_app, !captcha_calls_app,
         !attempts_logged_app, Hposts1, Hcaptcha1, Hlog1, Hposts4,
         Hcaptcha4, Hlog4.
       cbn. rewrite app_nil_r.
       repeat split; try lia; try exact Hlog3. discriminate. }
  destruct sidSet;
    [| destruct (Hfalse4 eq_refl) as (Habs & _); discriminate Habs].
  destruct (Htrue4 eq_refl) as (tok & resp & s & _ & _ & _ & Hreqs).
  eexists. unfold L_info, emit. cbn [fst snd]. rewrite <- !app_assoc.
  split; [reflexivity |].
  rewrite !credential_posts_app, !captcha_calls_app, !attempts_logged_app,
    !network_calls_app, Hposts1, Hcaptcha1, Hlog1, Hposts4, Hcaptcha4, Hlog4,
    Hreqs.
  cbn. rewrite app_nil_r.
  repeat split; try lia; try exact Hlog3.
  intros _.
  exists (network_calls evs1
            ++ Get REPUTATION_ENDPOINT None None None
            :: network_calls evs3
            ++ [Get CSRF_ENDPOINT None None None; redirect_request tok]), s.
  rewrite <- !app_assoc. cbn. rewrite <- !app_assoc. reflexivity.
Qed.

(** ** [getCsrf] and the cookie *)

Lemma cookieParser_absent setCookie key :
  (forall c, In c setCookie -> name c <> key) ->
  cookieParser setCookie key = None.
Proof.
  induction setCookie as [| c rest IH]; intros Hno; [reflexivity |].
  cbn. rewrite IH by (intros c' Hin; apply Hno; right; exact Hin).
  destruct (String.eqb_spec (name c) key) as [Heq | _]; [| reflexivity].
  exfalso. apply (Hno c); [left; reflexivity | exact Heq].
Qed.

Lemma cookieParser_found setCookie key c :
  cookieParser setCookie key = Some c -> In c setCookie /\ name c = key.
Proof.
  induction setCookie as [| c0 rest IH]; [discriminate |].
  cbn. destruct (cookieParser rest key) as [c' |].
  - intros H. injection H as ->. destruct (IH eq_refl) as (Hin & Hname).
    split; [right; exact Hin | exact Hname].
  - destruct (String.eqb_spec (name c0) key) as [Heq | _]; [| discriminate].
    intros H. injection H as ->. split; [left; reflexivity | exact Heq].
Qed.

Lemma cookieParser_present setCookie key c :
  In c setCookie -> name c = key ->
  exists c', cookieParser setCookie key = Some c'.
Proof.
  induction setCookie as [| c0 rest IH]; [contradiction |].
  intros [-> | Hin] Hname; cbn.
  - destruct (cookieParser rest key) as [c' |]; [exists c'; reflexivity |].
    rewrite Hname, String.eqb_refl. exists c. reflexivity.
  - destruct (IH Hin Hname) as (c' & ->). exists c'. reflexivity.
Qed.

Lemma getCsrf_by_reply W t :
  getCsrf W t =
  (match request W (csrf_requesting t) (Get CSRF_ENDPOINT None None None) with
   | Return csrfResp =>
       match cookieParser (set_cookie csrfResp) "XSRF-TOKEN" with
       | Some c => Return (value c)
       | None => Throw (TypeError "Cannot read property 'value' of undefined")
       end
   | Throw e => Throw e
   end,
   t ++ csrf_events).
Proof.
  rewrite <- (getCsrf_trace W t).
  rewrite (surjective_pairing (getCsrf W t)) at 1.
  f_equal.
  unfold getCsrf, L_debug, L_trace, request_get, csrf_requesting.
  rewrite !bind_emit. unfold bind.
  destruct (request W _ _) as [resp | e]; [| reflexivity].
  destruct (cookieParser _ _); reflexivity.
Qed.

(** X1: when the reply of the CSRF endpoint sets no cookie named
    [XSRF-TOKEN], [getCsrf] does not return a token: it fails with a
    [TypeError], after its one request. *)
Theorem getCsrf_missing_cookie W t csrfResp :
  request W (csrf_requesting t) (Get CSRF_ENDPOINT None None None) =
    Return csrfResp ->
  (forall c, In c (set_cookie csrfResp) -> name c <> "XSRF-TOKEN") ->
  getCsrf W t =
    (Throw (TypeError "Cannot read property 'value' of undefined"),
     t ++ csrf_events).
Proof.
  intros Hreply Hno.
  rewrite getCsrf_by_reply, Hreply, (cookieParser_absent _ _ Hno).
  reflexivity.
Qed.

Lemma getCsrf_missing_cookie_witness :
  getCsrf forgetful [] =
    (Throw (TypeError "Cannot read property 'value' of undefined"),
     [] ++ csrf_events).
Proof.
  apply (getCsrf_missing_cookie forgetful [] no_token_response).
  - reflexivity.
  - intros c [<- | []]. discriminate.
Defined.

(** X2: when the reply of the CSRF endpoint sets the cookie [XSRF-TOKEN],
    and sets it to one value if it sets it more than once, [getCsrf]
    returns that value, after its one request. *)
Theorem getCsrf_returns_cookie W t csrfResp c :
  request W (csrf_requesting t) (Get CSRF_ENDPOINT None None None) =
    Return csrfResp ->
  In c (set_cookie csrfResp) ->
  name c = "XSRF-TOKEN" ->
  (forall c', In c' (set_cookie csrfResp) -> name c' = "XSRF-TOKEN" ->
              value c' = value c) ->
  getCsrf W t = (Return (value c), t ++ csrf_events)
  /\ network_calls (snd (getCsrf W t)) =
     network_calls t ++ [Get CSRF_ENDPOINT None None None].
Proof.
  intros Hreply Hin Hname Hsame.
  rewrite getCsrf_by_reply, Hreply. cbn [snd].
  destruct (cookieParser_present _ _ _ Hin Hname) as (c' & Hc').
  rewrite Hc'. destruct (cookieParser_found _ _ _ Hc') as (Hin' & Hname').
  rewrite (Hsame c' Hin' Hname'). split; [reflexivity |].
  rewrite network_calls_app. reflexivity.
Qed.

Lemma getCsrf_returns_cookie_witness :
  getCsrf repeating [] = (Return "abc", [] ++ csrf_events).
Proof.
  apply (getCsrf_returns_cookie repeating [] two_tokens_response
           {| name := "XSRF-TOKEN"; value := "abc" |}).
  - reflexivity.
  - left. reflexivity.
  - reflexivity.
  - intros c' [<- | [<- | [<- | []]]] Hname;
      [reflexivity | discriminate Hname | reflexivity].
Defined.

(** ** [loginMFA] and [sendVerify] *)

(** X3: [loginMFA] never repeats itself.  Whatever the server answers, a
    call sends nothing, or the CSRF fetch, or the CSRF fetch followed by
    one MFA POST; it generates at most one code; the POST carries the
    token just fetched; and the call returns only when the code has been
    generated and the POST has been sent. *)
Theorem loginMFA_at_most_once W totpSecret t :
  exists evs,
    snd (loginMFA W totpSecret t) = t ++ evs
    /\ (network_calls evs = []
        \/ network_calls evs = [Get CSRF_ENDPOINT None None None]
        \/ exists code csrfToken,
             network_calls evs =
             [Get CSRF_ENDPOINT None None None;
              Post MFA_LOGIN_ENDPOINT (mfa_json code) csrfToken])
    /\ totp_calls evs <= 1
    /\ (fst (loginMFA W totpSecret t) = Return tt ->
        mfa_posts evs = 1 /\ totp_calls evs = 1)
    /\ forall token, tokens_fresh W t token evs = true.
Proof.
  destruct (loginMFA_run_requests _ _ _ _ (loginMFA_run_loginMFA W totpSecret t))
    as (evs & Hevs & Hreqs & Htotp & _ & Hret & Hfresh).
  exists evs. repeat split; assumption || apply Hret; assumption.
Qed.

(** X4: with a secret, a CSRF token and a generated code, [loginMFA]
    posts the code with the method 'authenticator' and the device
    remembered, under the token it fetched, and ends as the POST ends:
    it returns when the POST is accepted and throws the error of the POST
    otherwise. *)
Theorem loginMFA_posts_code W totpSecret t csrfToken code :
  truthy totpSecret = true ->
  fst (getCsrf W (mfa_entered t)) = Return csrfToken ->
  TOTP_generate W (mfa_entered t ++ csrf_events) (default_arg "" totpSecret) =
    Return code ->
  loginMFA W totpSecret t =
    (match request W (mfa_requesting (default_arg "" totpSecret) code t)
             (Post MFA_LOGIN_ENDPOINT (mfa_json code) csrfToken) with
     | Return _ => Return tt
     | Throw e => Throw e
     end,
     mfa_requesting (default_arg "" totpSecret) code t
       ++ [CallHttp (Post MFA_LOGIN_ENDPOINT (mfa_json code) csrfToken)]).
Proof.
  intros Hs Hcsrf Htotp.
  destruct (loginMFA_run_loginMFA W totpSecret t)
    as [Hno | e Hs' Hcsrf' | csrfToken' e Hs' Hcsrf' Htotp'
        | csrfToken' code' e Hs' Hcsrf' Htotp' Hpost
        | csrfToken' code' resp Hs' Hcsrf' Htotp' Hpost];
    try congruence.
  - assert (csrfToken' = csrfToken) as -> by congruence.
    assert (code' = code) as -> by congruence.
    rewrite Hpost. reflexivity.
  - assert (csrfToken' = csrfToken) as -> by congruence.
    assert (code' = code) as -> by congruence.
    rewrite Hpost. reflexivity.
Qed.

Lemma loginMFA_posts_code_witness :
  loginMFA (scripted [] (fun _ => false)) (Some "JBSWY3DPEHPK3PXP") [] =
    (Return tt,
     mfa_requesting "JBSWY3DPEHPK3PXP" "123456" []
       ++ [CallHttp (Post MFA_LOGIN_ENDPOINT (mfa_json "123456") "abc")]).
Proof.
  apply (loginMFA_posts_code (scripted [] (fun _ => false))
           (Some "JBSWY3DPEHPK3PXP") [] "abc" "123456");
    reflexivity.
Defined.

(** X5: [sendVerify] posts the verification code only under a CSRF token
    it has just fetched.  When the fetch fails its error is the outcome
    and nothing is posted; otherwise one POST of the code follows and its
    outcome is the outcome of the call. *)
Theorem sendVerify_needs_token W code t :
  sendVerify W code t =
    match fst (getCsrf W t) with
    | Throw e => (Throw e, t ++ csrf_events)
    | Return csrfToken =>
        (match request W
                 (t ++ csrf_events
                    ++ [Log Ltrace (ObjBodyUrl (VerifyJson code) EMAIL_VERIFY)
                          "Verify email request"])
                 (Post EMAIL_VERIFY (VerifyJson code) csrfToken) with
         | Return _ => Return tt
         | Throw e => Throw e
         end,
         t ++ csrf_events
           ++ [Log Ltrace (ObjBodyUrl (VerifyJson code) EMAIL_VERIFY)
                 "Verify email request";
               CallHttp (Post EMAIL_VERIFY (VerifyJson code) csrfToken)])
    end
  /\ exists evs,
       snd (sendVerify W code t) = t ++ evs
       /\ forall token, tokens_fresh W t token evs = true.
Proof.
  assert (Heq :
    sendVerify W code t =
    match fst (getCsrf W t) with
    | Throw e => (Throw e, t ++ csrf_events)
    | Return csrfToken =>
        (match request W
                 (t ++ csrf_events
                    ++ [Log Ltrace (ObjBodyUrl (VerifyJson code) EMAIL_VERIFY)
                          "Verify email request"])
                 (Post EMAIL_VERIFY (VerifyJson code) csrfToken) with
         | Return _ => Return tt
         | Throw e => Throw e
         end,
         t ++ csrf_events
           ++ [Log Ltrace (ObjBodyUrl (VerifyJson code) EMAIL_VERIFY)
                 "Verify email request";
               CallHttp (Post EMAIL_VERIFY (VerifyJson code) csrfToken)])
    end).
  { unfold sendVerify.
    destruct (fst (getCsrf W t)) as [csrfToken | e] eqn:Hcsrf.
    - rewrite (bind_Return _ _ _ _ _ (getCsrf_run W _ _ Hcsrf)).
      unfold L_trace. rewrite bind_emit. unfold request_post, bind.
      rewrite <- !app_assoc.
      destruct (request W _ _); cbn; rewrite <- ?app_assoc; reflexivity.
    - apply (bind_Throw _ _ _ _ _ (getCsrf_run W _ _ Hcsrf)). }
  split; [exact Heq |]. rewrite Heq.
  destruct (fst (getCsrf W t)) as [csrfToken | e] eqn:Hcsrf; cbn [snd].
  - eexists. split; [reflexivity |]. intros token.
    apply (fetch_then_post_fresh W t token csrfToken
             [Log Ltrace (ObjBodyUrl (VerifyJson code) EMAIL_VERIFY)
                "Verify email request"] _ _ Hcsrf).
    repeat constructor.
  - eexists. split; reflexivity.
Qed.

(** ** More on [login] *)

Section MoreOfLogin.

Variables (W : World) (email password : string).
Variables (captcha0 totp0 blob : option string) (attempt0 : option Z).
Variable t : Trace.

(* The arguments after their defaults, named as in the method's body. *)
Local Notation captcha := (default_arg "" captcha0).
Local Notation totp := (default_arg "" totp0).
Local Notation attempt := (default_arg 0%Z attempt0).

(** X6: when the credential POST fails with the captcha-invalid error
    code and the CAPTCHA resolver itself fails, the error of the resolver
    is the outcome of [login]: there is no retry, [login] is not entered
    again and no second credential POST is sent. *)
Theorem login_captcha_resolver_fails csrfToken e errBody e' :
  credential_post_fails W email password captcha attempt t csrfToken e ->
  structured e = Some (errBody, captcha_invalid) ->
  notifyManualCaptcha W
    (posted email password captcha attempt csrfToken t
       ++ [Log Ldebug NoObj "Captcha required"])
    EpicArkosePublicKey.LOGIN blob = Throw e' ->
  login W email password captcha0 totp0 blob attempt0 t =
    (Throw e',
     posted email password captcha attempt csrfToken t
       ++ [Log Ldebug NoObj "Captcha required";
           CallCaptcha EpicArkosePublicKey.LOGIN blob])
  /\ attempts_logged
       (snd (login W email password captcha0 totp0 blob attempt0 t)) =
     attempts_logged t ++ [attempt]
  /\ credential_posts
       (snd (login W email password captcha0 totp0 blob attempt0 t)) =
     credential_posts t + 1.
Proof.
  intros Hfail Hs Hsolve.
  assert (Heq : login W email password captcha0 totp0 blob attempt0 t =
                (Throw e',
                 posted email password captcha attempt csrfToken t
                   ++ [Log Ldebug NoObj "Captcha required";
                       CallCaptcha EpicArkosePublicKey.LOGIN blob])).
  { rewrite (login_catch W _ _ _ _ _ _ _ _ _ Hfail), Hs.
    change (includes captcha_invalid "session_invalidated") with false.
    rewrite String.eqb_refl. cbv iota.
    unfold bind, call_notifyManualCaptcha. rewrite Hsolve.
    rewrite <- app_assoc. reflexivity. }
  rewrite Heq. cbn [snd]. rewrite posted_events, <- app_assoc.
  rewrite attempts_logged_app, credential_posts_app.
  repeat split.
Qed.



(** X9: whatever the server answers, [login] sends only CSRF fetches,
    credential POSTs with the email and password it was given (and
    [rememberMe]), and MFA POSTs; and every call of the CAPTCHA resolver
    is for the login site key with the blob it was given. *)
Theorem login_traffic_only :
  exists evs,
    snd (login W email password captcha0 totp0 blob attempt0 t) = t ++ evs
    /\ Forall (login_traffic email password) (network_calls evs)
    /\ Forall (captcha_for blob) evs.
Proof.
  apply (login_run_traffic _ _ _ _ _ _ _ _ _
           (login_run_login W email password captcha0 totp0 blob attempt0 t)).
Qed.

(** X10: every retry fetches its own CSRF token.  In a run of [login]
    every POST, the credential POST of each attempt and the MFA POST,
    carries the token of a CSRF fetch made after the previous POST. *)
Theorem login_tokens_fresh :
  exists evs,
    snd (login W email password captcha0 totp0 blob attempt0 t) = t ++ evs
    /\ forall token, tokens_fresh W t token evs = true.
Proof.
  apply (login_run_tokens _ _ _ _ _ _ _ _ _
           (login_run_login W email password captcha0 totp0 blob attempt0 t)).
Qed.

(** X11: up to and including attempt 5 the guard lets the call pass: once
    the CSRF token is fetched, the credential POST is sent, with the
    email, the password, the captcha and [rememberMe] in its body and the
    token in its header. *)
Theorem login_posts_up_to_attempt_5 csrfToken :
  (attempt <= 5)%Z ->
  fst (getCsrf W (entered email captcha attempt t)) = Return csrfToken ->
  exists tail,
    snd (login W email password captcha0 totp0 blob attempt0 t) =
      posted email password captcha attempt csrfToken t ++ tail
    /\ network_calls
         (snd (login W email password captcha0 totp0 blob attempt0 t)) =
       network_calls t
         ++ Get CSRF_ENDPOINT None None None
         :: Post LOGIN_ENDPOINT (login_json email password captcha) csrfToken
         :: network_calls tail.
Proof.
  intros Hle Hcsrf.
  assert (Htail : exists tail,
             snd (login W email password captcha0 totp0 blob attempt0 t) =
             posted email password captcha attempt csrfToken t ++ tail).
  { destruct (request W (requesting email password captcha attempt t)
                (Post LOGIN_ENDPOINT (login_json email password captcha)
                   csrfToken)) as [resp | e] eqn:Hpost.
    { rewrite (login_logged_in W _ _ _ _ _ _ _ _ _ Hle Hcsrf Hpost).
      eexists. reflexivity. }
    assert (Hfail : credential_post_fails W email password captcha attempt t
                      csrfToken e) by (repeat split; assumption).
    rewrite (login_catch W _ _ _ _ _ _ _ _ _ Hfail).
    destruct (structured e) as [[errBody errorCode] |];
      [| eexists; reflexivity].
    destruct (includes errorCode "session_invalidated").
    { match goal with
      | |- context [login W ?e ?p ?c ?s ?b ?a ?t'] =>
          destruct (login_facts W e p c s b a t') as (evs & -> & _)
      end.
      rewrite <- app_assoc. eexists. reflexivity. }
    destruct (String.eqb errorCode captcha_invalid).
    { unfold bind, call_notifyManualCaptcha.
      destruct (notifyManualCaptcha W _ _ _) as [captchaToken | e'].
      - match goal with
        | |- context [login W ?e ?p ?c ?s ?b ?a ?t'] =>
            destruct (login_facts W e p c s b a t') as (evs & -> & _)
        end.
        rewrite <- !app_assoc. eexists. reflexivity.
      - cbn [snd]. rewrite <- !app_assoc. eexists. reflexivity. }
    destruct (String.eqb errorCode two_factor_required).
    - destruct (loginMFA_events W (Some totp)
                  (posted email password captcha attempt csrfToken t))
        as (evs & -> & _).
      eexists. reflexivity.
    - eexists. reflexivity. }
  destruct Htail as (tail & Htail). exists tail. split; [exact Htail |].
  rewrite Htail, posted_events, <- app_assoc, !network_calls_app.
  reflexivity.
Qed.

End MoreOfLogin.

Lemma login_captcha_resolver_fails_witness :
  login (captcha_down (scripted [captcha_invalid] (fun _ => false)))
    "user@example.com" "hunter2" None None (Some "blob") None [] =
  (Throw (Error "captcha timed out"),
   posted "user@example.com" "hunter2" "" 0 "abc" []
     ++ [Log Ldebug NoObj "Captcha required";
         CallCaptcha EpicArkosePublicKey.LOGIN (Some "blob")]).
Proof.
  apply (login_captcha_resolver_fails
           (captcha_down (scripted [captcha_invalid] (fun _ => false)))
           "user@example.com" "hunter2" None None (Some "blob") None []
           "abc" (http_error captcha_invalid)
           {| Err.errorCode := Some captcha_invalid |}
           (Error "captcha timed out")).
  - split; [cbn [default_arg]; lia | split; reflexivity].
  - reflexivity.
  - reflexivity.
Defined.


Lemma login_posts_up_to_attempt_5_witness :
  exists tail,
    snd (login (scripted [] (fun _ => false)) "user@example.com" "hunter2"
           None None None (Some 5%Z) []) =
      posted "user@example.com" "hunter2" "" 5 "abc" [] ++ tail
    /\ network_calls
         (snd (login (scripted [] (fun _ => false)) "user@example.com"
                 "hunter2" None None None (Some 5%Z) [])) =
       network_calls []
         ++ Get CSRF_ENDPOINT None None None
         :: Post LOGIN_ENDPOINT
              (login_json "user@example.com" "hunter2" "") "abc"
         :: network_calls tail.
Proof.
  apply (login_posts_up_to_attempt_5 (scripted [] (fun _ => false))
           "user@example.com" "hunter2" None None None (Some 5%Z) [] "abc").
  - cbn [default_arg]. lia.
  - reflexivity.
Defined.

(** ** More on [refreshAndSid] and [fullLogin] *)

(** X12: [refreshAndSid] only ever sends GET requests.  It returns [true]
    only after all four of them: the CSRF fetch, the redirect request,
    the SID-setting request with the non-empty session identifier of the
    redirect response, and the fetch of the store homepage.  It returns
    [false] only when called with [error = false], after the first two
    requests. *)
Theorem refreshAndSid_outcomes W error t :
  exists evs,
    snd (refreshAndSid W error t) = t ++ evs
    /\ Forall (fun q => match q with Post _ _ _ => False | _ => True end)
         (network_calls evs)
    /\ (fst (refreshAndSid W error t) = Return true ->
        exists csrfToken redirectResp s,
          request W (redirecting t) (redirect_request csrfToken) =
            Return redirectResp
          /\ sid (body redirectResp) = Some s
          /\ s <> ""
          /\ network_calls evs =
             [Get CSRF_ENDPOINT None None None; redirect_request csrfToken;
              sid_request s; store_request])
    /\ (fst (refreshAndSid W error t) = Return false ->
        error = false
        /\ exists csrfToken,
             network_calls evs =
             [Get CSRF_ENDPOINT None None None; redirect_request csrfToken]).
Proof.
  destruct (refreshAndSid_run_facts _ _ _ _
              (refreshAndSid_run_refreshAndSid W error t))
    as (evs & Hevs & _ & _ & _ & Hgets & Htrue & Hfalse).
  exists evs. repeat split; try assumption.
  - apply Hfalse. assumption.
  - apply Hfalse. assumption.
Qed.

(** X13: when no account is configured and [fullLogin] is called without
    one of its arguments, reading the default fails with a [TypeError]
    before anything is logged or requested. *)
Theorem fullLogin_no_account W config email0 password0 totp0 t :
  Config.accounts config = [] ->
  email0 = None \/ password0 = None \/ totp0 = None ->
  fullLogin W config email0 password0 totp0 t =
  (Throw (TypeError "Cannot read property of undefined"), t).
Proof. apply fullLogin_defaults_fail. Qed.

Lemma fullLogin_no_account_witness :
  fullLogin (scripted [] (fun _ => true)) no_account
    (Some "user@example.com") None None [] =
  (Throw (TypeError "Cannot read property of undefined"), []).
Proof.
  apply (fullLogin_no_account (scripted [] (fun _ => true)) no_account
           (Some "user@example.com") None None []).
  - reflexivity.
  - right. left. reflexivity.
Defined.

(** X14: [fullLogin] resolves only with a session in place: in a run that
    returns, the last two requests are the SID-setting request and the
    fetch of the store homepage. *)
Theorem fullLogin_success_session W config email0 password0 totp0 t :
  fst (fullLogin W config email0 password0 totp0 t) = Return tt ->
  exists evs before s,
    snd (fullLogin W config email0 password0 totp0 t) = t ++ evs
    /\ network_calls evs = before ++ [sid_request s; store_request].
Proof.
  intros Hret.
  destruct (fullLogin_facts W config email0 password0 totp0 t)
    as (evs & Hevs & _ & _ & _ & Hsession).
  destruct (Hsession Hret) as (before & s & Hreqs).
  exists evs, before, s. split; assumption.
Qed.

Lemma fullLogin_success_session_witness :
  exists evs before s,
    snd (fullLogin (scripted [captcha_invalid] after_login) one_account
           None None None []) = [] ++ evs
    /\ network_calls evs = before ++ [sid_request s; store_request].
Proof.
  apply (fullLogin_success_session (scripted [captcha_invalid] after_login)
           one_account None None None []).
  reflexivity.
Defined.

(** X15: whatever the server answers, one call of [fullLogin] sends at
    most 6 credential POSTs and calls the CAPTCHA resolver at most 6
    times, and [login] is never entered with a counter above 6. *)
Theorem fullLogin_bounded W config email0 password0 totp0 t :
  exists evs,
    snd (fullLogin W config email0 password0 totp0 t) = t ++ evs
    /\ credential_posts evs <= 6
    /\ captcha_calls evs <= 6
    /\ Forall (fun k => (k <= 6)%Z) (attempts_logged evs).
Proof.
  destruct (fullLogin_facts W config email0 password0 totp0 t)
    as (evs & Hevs & Hposts & Hcaptcha & Hlog & _).
  exists evs. repeat split; assumption.
Qed.

(** X16: in a fresh login, what [fullLogin] hands to [login] is what it
    has at hand: after the reputation fetch every call of the CAPTCHA
    resolver carries the blob of the reputation data just fetched, and
    every POST is a credential POST with the email and password of the
    call (those of the first configured account when omitted) or an MFA
    POST. *)
Theorem fullLogin_fresh_login_data
    W config email0 password0 totp0 account others t t1 reputation t2 :
  Config.accounts config = account :: others
  \/ (email0 <> None /\ password0 <> None /\ totp0 <> None) ->
  refreshAndSid W false t = (Return false, t1) ->
  getReputation W
    (t1 ++ [Log Ldebug NoObj
              "Could not refresh credentials. Logging in fresh."]) =
    (Return reputation, t2) ->
  exists evs,
    snd (fullLogin W config email0 password0 totp0 t) = t2 ++ evs
    /\ Forall (captcha_for (Some (blob (arkose_data reputation)))) evs
    /\ Forall
         (fun q =>
            match q with
            | Post _ _ _ =>
                login_traffic (default_arg (Config.email account) email0)
                  (default_arg (Config.password account) password0) q
            | Get _ _ _ _ => True
            end)
         (network_calls evs).
Proof.
  intros Hok Hrefresh Hreputation.
  rewrite (fullLogin_body W _ _ _ _ account others t Hok).
  rewrite (bind_Return _ _ _ _ _ Hrefresh). cbv iota.
  unfold L_debug. rewrite bind_emit.
  rewrite (bind_Return _ _ _ _ _ Hreputation).
  (* the login *)
  match goal with
  | |- context [bind (login W ?e ?p ?c ?s ?b ?a) ?k ?t'] =>
      destruct (login_run_traffic _ _ _ _ _ _ _ _ _
                  (login_run_login W e p c s b a t'))
        as (evs3 & Hevs3 & Hreqs3 & Hcaptcha3);
      destruct (bind_cases (login W e p c s b a) k t')
        as [(u & t3 & Hr3 & ->) | (e' & t3 & Hr3 & ->)]
  end;
    rewrite Hr3 in Hevs3; cbn [snd] in Hevs3; subst t3.
  2: { exists evs3. cbn [snd]. split; [reflexivity |].
       split; [exact Hcaptcha3 |].
       eapply Forall_impl; [| exact Hreqs3].
       intros [] Hq; [exact I | exact Hq]. }
  (* the demanded refresh *)
  assert (Hposts : forall evs4,
    Forall (fun q => match q with Post _ _ _ => False | _ => True end)
      (network_calls evs4) ->
    Forall
      (fun q =>
         match q with
         | Post _ _ _ =>
             login_traffic (default_arg (Config.email account) email0)
               (default_arg (Config.password account) password0) q
         | Get _ _ _ _ => True
         end)
      (network_calls evs3 ++ network_calls evs4)).
  { intros evs4 Hgets. apply Forall_app. split.
    - eapply Forall_impl; [| exact Hreqs3].
      intros [] Hq; [exact I | exact Hq].
    - eapply Forall_impl; [| exact Hgets].
      intros [] Hq; [exact I | contradiction]. }
  match goal with
  | |- context [bind (refreshAndSid W true) ?k ?t'] =>
      destruct (refreshAndSid_run_facts _ _ _ _
                  (refreshAndSid_run_refreshAndSid W true t'))
        as (evs4 & Hevs4 & _ & Hcaptcha4 & _ & Hgets4 & _);
      destruct (bind_cases (refreshAndSid W true) k t')
        as [(sidSet & t4 & Hr4 & ->) | (e' & t4 & Hr4 & ->)]
  end;
    rewrite Hr4 in Hevs4; cbn [snd] in Hevs4; subst t4.
  - exists (evs3 ++ evs4 ++ [Log Linfo NoObj "Successfully logged in fresh"]).
    unfold L_info, emit. cbn [snd]. rewrite <- !app_assoc.
    split; [reflexivity |]. split.
    + apply Forall_app. split; [exact Hcaptcha3 |].
      apply Forall_app. split; [apply no_captcha_calls, Hcaptcha4 |].
      repeat constructor.
    + rewrite !network_calls_app. cbn. rewrite app_nil_r.
      apply Hposts, Hgets4.
  - exists (evs3 ++ evs4). cbn [snd]. rewrite <- !app_assoc.
    split; [reflexivity |]. split.
    + apply Forall_app. split; [exact Hcaptcha3 |].
      apply no_captcha_calls, Hcaptcha4.
    + rewrite network_calls_app. apply Hposts, Hgets4.
Qed.

Lemma fullLogin_fresh_login_data_witness :
  exists evs,
    snd (fullLogin (scripted [captcha_invalid] after_login) one_account
           None None None []) =
      snd (getReputation (scripted [captcha_invalid] after_login)
             (snd (refreshAndSid (scripted [captcha_invalid] after_login)
                     false [])
                ++ [Log Ldebug NoObj
                      "Could not refresh credentials. Logging in fresh."]))
        ++ evs
    /\ Forall (captcha_for (Some "blob")) evs
    /\ Forall
         (fun q =>
            match q with
            | Post _ _ _ => login_traffic "user@example.com" "hunter2" q
            | Get _ _ _ _ => True
            end)
         (network_calls evs).
Proof.
  apply (fullLogin_fresh_login_data (scripted [captcha_invalid] after_login)
           one_account None None None
           {| Config.email := "user@example.com";
              Config.password := "hunter2";
              Config.totp := None |}
           [] []
           (snd (refreshAndSid (scripted [captcha_invalid] after_login)
                   false []))
           {| sid := None; arkose_data := {| blob := "blob" |} |}).
  - left. reflexivity.
  - reflexivity.
  - reflexivity.
Defined.

(** ** Further paths *)

(** X17: when the credential POST is accepted, [login] returns at once:
    it has sent the CSRF fetch and that one POST, and has called neither
    the CAPTCHA resolver nor [loginMFA]. *)
Theorem login_accepted W email password captcha0 totp0 blob attempt0 t
    csrfToken resp :
  (default_arg 0%Z attempt0 <= 5)%Z ->
  fst (getCsrf W
         (entered email (default_arg "" captcha0) (default_arg 0%Z attempt0)
            t)) = Return csrfToken ->
  request W
    (requesting email password (default_arg "" captcha0)
       (default_arg 0%Z attempt0) t)
    (Post LOGIN_ENDPOINT
       (login_json email password (default_arg "" captcha0)) csrfToken) =
    Return resp ->
  login W email password captcha0 totp0 blob attempt0 t =
    (Return tt,
     posted email password (default_arg "" captcha0)
       (default_arg 0%Z attempt0) csrfToken t
       ++ [Log Ldebug NoObj "Logged in"])
  /\ network_calls
       (snd (login W email password captcha0 totp0 blob attempt0 t)) =
     network_calls t
       ++ [Get CSRF_ENDPOINT None None None;
           Post LOGIN_ENDPOINT
             (login_json email password (default_arg "" captcha0)) csrfToken]
  /\ captcha_calls
       (snd (login W email password captcha0 totp0 blob attempt0 t)) =
     captcha_calls t
  /\ mfa_entries
       (snd (login W email password captcha0 totp0 blob attempt0 t)) =
     mfa_entries t.
Proof.
  intros Hle Hcsrf Hpost.
  rewrite (login_logged_in W _ _ _ _ _ _ _ _ _ Hle Hcsrf Hpost).
  split; [reflexivity |]. cbn [snd]. rewrite posted_events, <- app_assoc.
  rewrite network_calls_app, captcha_calls_app, mfa_entries_app.
  cbn. repeat split; lia.
Qed.

Lemma login_accepted_witness :
  login (scripted [] (fun _ => false)) "user@example.com" "hunter2"
    None None None None [] =
  (Return tt,
   posted "user@example.com" "hunter2" "" 0 "abc" []
     ++ [Log Ldebug NoObj "Logged in"]).
Proof.
  apply (login_accepted (scripted [] (fun _ => false)) "user@example.com"
           "hunter2" None None None None [] "abc" (ok_response None)).
  - cbn [default_arg]. lia.
  - reflexivity.
  - reflexivity.
Defined.

(** X18: an error code that is the empty string counts as no error code:
    when the credential POST fails with such an error, [login] logs the
    whole error, not its body, and throws it again without any
    recovery. *)
Theorem login_empty_error_code W email password captcha0 totp0 blob attempt0
    t csrfToken e response :
  credential_post_fails W email password (default_arg "" captcha0)
    (default_arg 0%Z attempt0) t csrfToken e ->
  Err.response e = Some response ->
  Err.body response = Some {| Err.errorCode := Some "" |} ->
  login W email password captcha0 totp0 blob attempt0 t =
    (Throw e,
     posted email password (default_arg "" captcha0)
       (default_arg 0%Z attempt0) csrfToken t
       ++ [Log Lerror (ObjErr e) "Login failed"]).
Proof.
  intros Hfail Hresponse Hbody.
  rewrite (login_catch W _ _ _ _ _ _ _ _ _ Hfail).
  unfold structured. rewrite Hresponse, Hbody. reflexivity.
Qed.

Lemma login_empty_error_code_witness :
  login (scripted [""] (fun _ => false)) "user@example.com" "hunter2"
    None None None None [] =
  (Throw empty_code_error,
   posted "user@example.com" "hunter2" "" 0 "abc" []
     ++ [Log Lerror (ObjErr empty_code_error) "Login failed"]).
Proof.
  apply (login_empty_error_code (scripted [""] (fun _ => false))
           "user@example.com" "hunter2" None None None None [] "abc"
           empty_code_error
           {| Err.body := Some {| Err.errorCode := Some "" |} |}).
  - split; [cbn [default_arg]; lia | split; reflexivity].
  - reflexivity.
  - reflexivity.
Defined.

(** X19: once the redirect response carries a session identifier, the
    outcome of [refreshAndSid] no longer depends on [error]: the
    SID-setting request is sent with that identifier; if it fails, its
    error is thrown and the store homepage is not fetched; otherwise the
    store homepage is fetched, and the call returns [true] or throws the
    error of that fetch. *)
Theorem refreshAndSid_with_sid W error t csrfToken redirectResp s :
  fst (getCsrf W (t ++ [Log Ldebug NoObj "Setting SID"])) = Return csrfToken ->
  request W (redirecting t) (redirect_request csrfToken) =
    Return redirectResp ->
  sid (body redirectResp) = Some s ->
  s <> "" ->
  refreshAndSid W error t =
    match request W (sid_requesting csrfToken s t) (sid_request s) with
    | Throw e =>
        (Throw e, sid_requesting csrfToken s t ++ [CallHttp (sid_request s)])
    | Return sidResp =>
        match request W (store_requesting csrfToken s sidResp t)
                store_request with
        | Throw e =>
            (Throw e,
             store_requesting csrfToken s sidResp t
               ++ [CallHttp store_request])
        | Return storeResp =>
            (Return true,
             store_requesting csrfToken s sidResp t
               ++ [CallHttp store_request;
                   Log Ltrace (ObjHeaders (set_cookie storeResp))
                     "Store homepage response headers"])
        end
    end.
Proof.
  intros Hcsrf Hredirect Hs Hne.
  assert (Htruthy : truthy (sid (body redirectResp)) = true)
    by (rewrite Hs; destruct s; [contradiction | reflexivity]).
  destruct (refreshAndSid_run_refreshAndSid W error t)
    as [e Hcsrf' | csrfToken' e Hcsrf' Hredirect'
        | csrfToken' redirectResp' Hcsrf' Hredirect' Hsid'
        | csrfToken' redirectResp' s' e Hcsrf' Hredirect' Hs' Hsid' Hset
        | csrfToken' redirectResp' s' sidResp e Hcsrf' Hredirect' Hs' Hsid'
            Hset Hstore
        | csrfToken' redirectResp' s' sidResp storeResp Hcsrf' Hredirect' Hs'
            Hsid' Hset Hstore];
    try congruence;
    assert (csrfToken' = csrfToken) as -> by congruence;
    try (assert (redirectResp' = redirectResp) as -> by congruence);
    try congruence;
    assert (s' = s) as -> by congruence;
    rewrite Hset; try rewrite Hstore; reflexivity.
Qed.

Lemma refreshAndSid_with_sid_witness :
  refreshAndSid (scripted [] (fun _ => true)) true [] =
  (Return true,
   store_requesting "abc" "sid" (ok_response (Some "sid")) []
     ++ [CallHttp store_request;
         Log Ltrace (ObjHeaders (set_cookie (ok_response (Some "sid"))))
           "Store homepage response headers"]).
Proof.
  apply (refreshAndSid_with_sid (scripted [] (fun _ => true)) true [] "abc"
           (ok_response (Some "sid")) "sid").
  - reflexivity.
  - reflexivity.
  - reflexivity.
  - discriminate.
Defined.
